(** * marketplace-installer: search the Visual Studio Marketplace from a
    sidebar webview and install an extension through the vsix-to-vscodium
    tool of a lazily provisioned Python virtual environment.

    The development embeds
      - [media/main.js]                (module [Webview]),
      - [extension.js]                 (module [Extension]),
      - the command-only [extension.js] found beside the README
                                       (module [CommandOnly]),
      - [MarketplaceViewProvider.js]   (module [Provider]),
    over a small model of the JavaScript values, strings and host
    interfaces (Node's [child_process], [fs], [path]; the [vscode] API;
    [axios]) that those files use.

    A run is taken one call at a time: the body of an async function runs
    to its end where it is called, and a promise is the way that body
    settled.  Posting to a webview never fails. *)

From Stdlib Require Import String Ascii List ZArith Bool.
From Stdlib Require Import DecimalString.
Import ListNotations.
Local Open Scope list_scope.
Local Open Scope string_scope.
Set Warnings "-register-all".

(* ===================================================================== *)
(** * JavaScript strings *)
(* ===================================================================== *)

(** A JavaScript string is modelled by a [string]: a sequence of code
    units below 256, read as U+0000..U+00FF. *)
Module JsString.

Definition dquote : string := String "034"%char EmptyString.
Definition newline : string := String "010"%char EmptyString.

(** [!s] for a string: only the empty string is falsy. *)
Definition truthy (s : string) : bool :=
  match s with EmptyString => false | String _ _ => true end.

(** WhiteSpace and LineTerminator code units below 256: TAB, LF, VT, FF,
    CR, SP and NBSP. *)
Definition is_white_space (c : ascii) : bool :=
  let n := nat_of_ascii c in
  (((9 <=? n) && (n <=? 13)) || (n =? 32) || (n =? 160))%nat.

Fixpoint trimStart (s : string) : string :=
  match s with
  | EmptyString => EmptyString
  | String c r => if is_white_space c then trimStart r else s
  end.

Fixpoint trimEnd (s : string) : string :=
  match s with
  | EmptyString => EmptyString
  | String c r =>
      match trimEnd r with
      | EmptyString => if is_white_space c then EmptyString else String c EmptyString
      | r' => String c r'
      end
  end.

(** [String.prototype.trim] *)
Definition trim (s : string) : string := trimEnd (trimStart s).

Definition is_upper (c : ascii) : bool :=
  let n := nat_of_ascii c in
  (((65 <=? n) && (n <=? 90))
   || ((192 <=? n) && (n <=? 222) && negb (n =? 215)))%nat.

Definition lower_unit (c : ascii) : ascii :=
  if is_upper c then ascii_of_nat (nat_of_ascii c + 32) else c.

(** [String.prototype.toLowerCase] *)
Fixpoint toLowerCase (s : string) : string :=
  match s with
  | EmptyString => EmptyString
  | String c r => String (lower_unit c) (toLowerCase r)
  end.

(** [Array.prototype.includes] on an array of strings. *)
Definition includes (l : list string) (x : string) : bool :=
  existsb (String.eqb x) l.

End JsString.
Import JsString.

(* ===================================================================== *)
(** * media/main.js: the search box of the webview *)
(* ===================================================================== *)

Module Webview.

(** Messages the webview posts to the extension host. *)
Inductive host_message :=
| Search (value : string)
| Install (value : string).

(** The part of the page [performSearch] reads and writes, and the
    messages sent so far through [vscode.postMessage]. *)
Record page := {
  searchInput_value : string;
  resultsContainer_innerHTML : string;
  posted : list host_message
}.

Definition enter_search_term : string :=
  "<p id=" ++ dquote ++ "info-message" ++ dquote
  ++ ">Please enter a search term.</p>".

Definition performSearch (p : page) : page :=
  let query := trim (searchInput_value p) in
  if truthy query then
    {| searchInput_value := searchInput_value p;
       resultsContainer_innerHTML := resultsContainer_innerHTML p;
       posted := posted p ++ [Search query] |}
  else
    {| searchInput_value := searchInput_value p;
       resultsContainer_innerHTML := enter_search_term;
       posted := posted p |}.

End Webview.

(* ===================================================================== *)
(** * JavaScript values, exceptions and the operations the code uses *)
(* ===================================================================== *)

Module Js.

(** Values that a parsed JSON document, or a read of one of its
    properties, can be.  Numbers are the integers. *)
Inductive value :=
| Undefined
| Null
| Bool (b : bool)
| Num (n : Z)
| Str (s : string)
| Arr (items : list value)
| Obj (fields : list (string * value)).

(** What a [throw] or a rejected promise carries.  An [AxiosError] has
    [error.response] (with its status) when the server answered, and
    [error.request] when the request left without an answer. *)
Inductive thrown :=
| Error (message : string)
| TypeError (message : string)
| AxiosError (message : string) (response_status : option Z) (request : bool).

Definition message_of (e : thrown) : string :=
  match e with
  | Error m | TypeError m | AxiosError m _ _ => m
  end.

(** [axios.isAxiosError(error)] *)
Definition isAxiosError (e : thrown) : bool :=
  match e with AxiosError _ _ _ => true | _ => false end.

Inductive completion (A : Type) :=
| Normal (a : A)
| Throw (e : thrown).
Arguments Normal {A} a.
Arguments Throw {A} e.

Definition cbind {A B} (c : completion A) (k : A -> completion B) : completion B :=
  match c with
  | Normal a => k a
  | Throw e => Throw e
  end.

Fixpoint cmap {A B} (f : A -> completion B) (l : list A) : completion (list B) :=
  match l with
  | [] => Normal []
  | x :: r => cbind (f x) (fun y => cbind (cmap f r) (fun ys => Normal (y :: ys)))
  end.

Definition ToBoolean (v : value) : bool :=
  match v with
  | Undefined | Null => false
  | Bool b => b
  | Num n => negb (n =? 0)%Z
  | Str s => truthy s
  | Arr _ | Obj _ => true
  end.

Definition nullish (v : value) : bool :=
  match v with Undefined | Null => true | _ => false end.

Fixpoint lookup (k : string) (fields : list (string * value)) : value :=
  match fields with
  | [] => Undefined
  | (k', v) :: r => if (k =? k')%string then v else lookup k r
  end.

Definition has_own (k : string) (fields : list (string * value)) : bool :=
  existsb (fun kv => (k =? fst kv)%string) fields.

Definition decimal (n : Z) : string := NilZero.string_of_int (Z.to_int n).

Definition cannot_read (what key : string) : thrown :=
  TypeError ("Cannot read properties of " ++ what ++ " (reading '" ++ key ++ "')").

(** [v.key], for the data properties the code reads. *)
Definition get (v : value) (key : string) : completion value :=
  match v with
  | Undefined => Throw (cannot_read "undefined" key)
  | Null => Throw (cannot_read "null" key)
  | Obj fields => Normal (lookup key fields)
  | Arr items =>
      Normal (if (key =? "length")%string then Num (Z.of_nat (List.length items))
              else Undefined)
  | Str s =>
      Normal (if (key =? "length")%string then Num (Z.of_nat (String.length s))
              else Undefined)
  | Bool _ | Num _ => Normal Undefined
  end.

(** [v[i]] *)
Definition index (v : value) (i : nat) : completion value :=
  match v with
  | Undefined => Throw (cannot_read "undefined" (decimal (Z.of_nat i)))
  | Null => Throw (cannot_read "null" (decimal (Z.of_nat i)))
  | Arr items => Normal (nth i items Undefined)
  | Str s =>
      Normal (match String.get i s with
              | Some c => Str (String c EmptyString)
              | None => Undefined
              end)
  | Obj fields => Normal (lookup (decimal (Z.of_nat i)) fields)
  | Bool _ | Num _ => Normal Undefined
  end.

(** The receiver of a call [v.method(...)] of an array method: parsed JSON
    has such a method only when it is an array. *)
Definition array_receiver (v : value) (method : string) : completion (list value) :=
  match v with
  | Arr items => Normal items
  | Undefined => Throw (cannot_read "undefined" method)
  | Null => Throw (cannot_read "null" method)
  | _ => Throw (TypeError (method ++ " is not a function"))
  end.

(** [Array.prototype.find] with a predicate that may throw. *)
Fixpoint find (p : value -> completion bool) (items : list value) : completion value :=
  match items with
  | [] => Normal Undefined
  | x :: r => cbind (p x) (fun b => if b then Normal x else find p r)
  end.

(** [v === 'literal'] *)
Definition strict_eq_string (v : value) (lit : string) : bool :=
  match v with Str s => (s =? lit)%string | _ => false end.

(** [a || b] *)
Definition or_else (a b : value) : value := if ToBoolean a then a else b.

(** ToString, as a template literal applies it.  An array joins its
    elements with commas, [null] and [undefined] elements printing as
    nothing; a plain object prints as [[object Object]], unless an own
    [toString] property (never a function in parsed JSON) hides the
    inherited one, and then no primitive value can be had from it. *)
Fixpoint ToString (v : value) : completion string :=
  match v with
  | Undefined => Normal "undefined"
  | Null => Normal "null"
  | Bool true => Normal "true"
  | Bool false => Normal "false"
  | Num n => Normal (decimal n)
  | Str s => Normal s
  | Arr items =>
      cbind
        ((fix join (l : list value) : completion (list string) :=
            match l with
            | [] => Normal []
            | x :: r =>
                cbind (if nullish x then Normal "" else ToString x)
                      (fun s => cbind (join r) (fun ss => Normal (s :: ss)))
            end) items)
        (fun parts => Normal (String.concat "," parts))
  | Obj fields =>
      if has_own "toString" fields
      then Throw (TypeError "Cannot convert object to primitive value")
      else Normal "[object Object]"
  end.

End Js.
Import Js.

(* ===================================================================== *)
(** * The messages between the extension host and the webview *)
(* ===================================================================== *)

Module Protocol.

(** One entry of a [showResults] message. *)
Record summary := {
  displayName : value;
  publisherDisplayName : value;
  shortDescription : value;
  extensionId : string;
  iconUrl : value;
  isInstalled : bool
}.

(** Extension host to webview. *)
Inductive message :=
| setLoading
| showResults (value : list summary)
| showError (value : string)
| showInfo (message : string).

End Protocol.
Import Protocol.

(* ===================================================================== *)
(** * The host: processes, files, notifications, HTTP *)
(* ===================================================================== *)

Module Host.

(** A finished child process. *)
Record process := {
  exit_code : Z;
  stdout : string;
  stderr : string
}.

(** What [axios.post] ends in: a 2xx response with its parsed body; a
    response with a status outside 2xx; no response to a request that was
    sent; or an error before anything was sent. *)
Inductive http_outcome :=
| Responded (data : value)
| Status (status : Z)
| NoResponse
| NotSent.

(** The machine and the user around the extension.  [run] gives, for the
    number of processes and requests started so far, the existing paths
    and a command line, the finished process and the paths that exist
    after it; [refuses] is the error with which the file system refuses
    to make a directory, among the existing paths, if it does; [picks] is
    the button the user presses on a notification; [serves] is the answer
    to a request (its URL and body). *)
Record host := {
  win32 : bool;
  path_join : list string -> string;
  run : nat -> list string -> string -> process * list string;
  refuses : list string -> string -> option thrown;
  picks : string -> list string -> option string;
  serves : nat -> string -> value -> http_outcome
}.

Inductive level := Log | Warn | Err.

(** The externally visible actions, in the order they happen. *)
Inductive event :=
| Exec (command : string)
| MkdirSync (path : string)
| ShowErrorMessage (text : string)
| ShowInformationMessage (text : string) (items : list string)
| WithProgress (title : string)
| ProgressReport (text : string)
| ShowInputBox (prompt placeHolder : string)
| ExecuteCommand (command : string)
| AxiosPost (url : string) (body : value) (headers : list (string * string))
| PostMessage (m : message).

Record world := {
  paths : list string;            (* the paths [fs.existsSync] finds *)
  extensions_all : list string;   (* ids of [vscode.extensions.all] *)
  clock : nat;                    (* processes and requests started *)
  trace : list event;
  console : list (level * string)
}.

(** A computation of the extension host: it may change the world and
    ends normally or by throwing; what it did before a throw stays done. *)
Definition M (A : Type) : Type := world -> completion A * world.

Definition ret {A} (a : A) : M A := fun w => (Normal a, w).

Definition bind {A B} (m : M A) (k : A -> M B) : M B :=
  fun w =>
    match m w with
    | (Normal a, w') => k a w'
    | (Throw e, w') => (Throw e, w')
    end.

Definition throw {A} (e : thrown) : M A := fun w => (Throw e, w).

(** [try { body } catch (error) { handler }] *)
Definition try_catch {A} (body : M A) (handler : thrown -> M A) : M A :=
  fun w =>
    match body w with
    | (Normal a, w') => (Normal a, w')
    | (Throw e, w') => handler e w'
    end.

(** Calling an async function gives a promise; its body is run at the
    call and the promise holds how it settled. *)
Definition promise (A : Type) : Type := completion A.

Definition call_async {A} (body : M A) : M (promise A) :=
  fun w => let (c, w') := body w in (Normal c, w').

Definition await {A} (p : promise A) : M A := fun w => (p, w).

(** A pure computation that may throw. *)
Definition lift {A} (c : completion A) : M A := fun w => (c, w).

Definition emit (e : event) : M unit :=
  fun w =>
    (Normal tt,
     {| paths := paths w; extensions_all := extensions_all w; clock := clock w;
        trace := trace w ++ [e]; console := console w |}).

Definition console_ (l : level) (line : string) : M unit :=
  fun w =>
    (Normal tt,
     {| paths := paths w; extensions_all := extensions_all w; clock := clock w;
        trace := trace w; console := console w ++ [(l, line)] |}).

Definition existsSync (path : string) : M bool :=
  fun w => (Normal (includes (paths w) path), w).

(** [fs.mkdirSync(path, { recursive: true })]: it throws what the file
    system refuses with (a file in the way, no permission, no space), and
    otherwise the path is there. *)
Definition mkdirSync (h : host) (path : string) : M unit :=
  fun w =>
    match refuses h (paths w) path with
    | Some e => (Throw e, w)
    | None =>
        (Normal tt,
         {| paths := path :: paths w; extensions_all := extensions_all w;
            clock := clock w; trace := trace w ++ [MkdirSync path];
            console := console w |})
    end.

Definition installed_ids : M (list string) :=
  fun w => (Normal (extensions_all w), w).

End Host.
Import Host.

Declare Scope js_scope.
Delimit Scope js_scope with js.
Notation "x <- c1 ;; c2" := (bind c1 (fun x => c2))
  (at level 61, c1 at next level, right associativity) : js_scope.
Notation "c1 ;; c2" := (bind c1 (fun _ => c2))
  (at level 61, right associativity) : js_scope.
Local Open Scope js_scope.

(* ===================================================================== *)
(** * The Node and vscode calls the extension makes *)
(* ===================================================================== *)

Module Api.
Section WithHost.
Variable h : host.

(** [child_process.exec(command, callback)]: the callback's arguments
    [(error, stdout, stderr)]; [error] is [null] exactly when the process
    exits with code 0. *)
Definition exec (command : string) : M (option thrown * string * string) :=
  fun w =>
    let (p, paths') := run h (clock w) (paths w) command in
    let failure :=
      if (exit_code p =? 0)%Z then None
      else Some (Error ("Command failed: " ++ command ++ newline ++ stderr p)) in
    (Normal (failure, stdout p, stderr p),
     {| paths := paths'; extensions_all := extensions_all w;
        clock := S (clock w); trace := trace w ++ [Exec command];
        console := console w |}).

Definition showErrorMessage (text : string) : M unit :=
  emit (ShowErrorMessage text).

(** [vscode.window.showInformationMessage(text, ...items)], resolving
    with the item the user picks. *)
Definition showInformationMessage (text : string) (items : list string)
  : M (option string) :=
  emit (ShowInformationMessage text items) ;;
  ret (picks h text items).

Definition executeCommand (command : string) : M unit :=
  emit (ExecuteCommand command).

(** [selection === 'Reload Window'] *)
Definition is_reload (selection : option string) : bool :=
  match selection with
  | Some item => (item =? "Reload Window")%string
  | None => false
  end.

(** [vscode.window.withProgress({ title, ... }, task)] *)
Definition withProgress {A} (title : string) (task : M A) : M A :=
  emit (WithProgress title) ;; task.

Definition progress_report (text : string) : M unit :=
  emit (ProgressReport text).

(** [vscode.window.showInputBox({ prompt, placeHolder, validateInput })].
    [typed] are the texts the user submits with Enter, in order, before
    giving up with Escape.  A text is taken when there is no validator or
    the validator answers [null] for it; Escape resolves [undefined]. *)
Definition showInputBox (prompt placeHolder : string)
    (validateInput : option (string -> option string)) (typed : list string)
  : M (option string) :=
  emit (ShowInputBox prompt placeHolder) ;;
  ret (List.find
         (fun text =>
            match validateInput with
            | None => true
            | Some validate =>
                match validate text with None => true | Some _ => false end
            end)
         typed).

Definition postMessage (m : message) : M unit := emit (PostMessage m).

(** [axios.post(url, body, { headers })], resolving with [response.data]
    for a 2xx status and rejecting with an [AxiosError] otherwise. *)
Definition axios_post (url : string) (body : value)
    (headers : list (string * string)) : M value :=
  fun w =>
    let w' :=
      {| paths := paths w; extensions_all := extensions_all w;
         clock := S (clock w);
         trace := trace w ++ [AxiosPost url body headers];
         console := console w |} in
    match serves h (clock w) url body with
    | Responded data => (Normal data, w')
    | Status st =>
        (Throw (AxiosError ("Request failed with status code " ++ decimal st)
                           (Some st) true), w')
    | NoResponse => (Throw (AxiosError "Network Error" None true), w')
    | NotSent => (Throw (AxiosError "Request aborted" None false), w')
    end.

End WithHost.
End Api.
Import Api.

(* ===================================================================== *)
(** * The shell behind child_process.exec *)
(* ===================================================================== *)

(** [exec] hands its command line to a shell.  This is how [/bin/sh -c]
    reads a line made of plain words, blanks, double-quoted texts and
    semicolons: the commands it runs, each with its words, the program
    first.  Lines with anything else (expansions, redirections, pipes,
    escapes, comments) are outside of it, and read as [None]. *)
Module Shell.

Definition code (c : ascii) : nat := nat_of_ascii c.



Definition blank (c : ascii) : bool :=
  let n := code c in ((n =? 32) || (n =? 9))%nat.





End Shell.

(* ===================================================================== *)
(** * MarketplaceViewProvider.js *)
(* ===================================================================== *)

Module Provider.

(** The webview view handed to [resolveWebviewView]. *)
Inductive webviewView := WebviewView.

Record provider := {
  _installerCmdPromise : promise string;
  _installExtension : option string -> option string -> M unit;
  _view : option webviewView
}.

Definition constructor (installerCmdPromise : promise string)
    (installExtensionFunction : option string -> option string -> M unit)
  : provider :=
  {| _installerCmdPromise := installerCmdPromise;
     _installExtension := installExtensionFunction;
     _view := None |}.

Definition query_url : string :=
  "https://marketplace.visualstudio.com/_apis/public/gallery/extensionquery".

Definition query_body (query : string) : value :=
  Obj [("filters",
        Arr [Obj [("criteria",
                   Arr [Obj [("filterType", Num 10); ("value", Str query)]]);
                  ("pageNumber", Num 1);
                  ("pageSize", Num 50)]]);
       ("flags", Num 71)].

Definition query_headers : list (string * string) :=
  [("Content-Type", "application/json");
   ("Accept", "application/json;api-version=6.0-preview.1");
   ("User-Agent", "VSCode Marketplace")].

Definition default_icon : string := "Microsoft.VisualStudio.Services.Icons.Default".

(** [`${ext.publisher.publisherName}.${ext.extensionName}`] *)
Definition full_id (ext : value) : completion string :=
  cbind (get ext "publisher") (fun publisher =>
  cbind (get publisher "publisherName") (fun publisherName =>
  cbind (ToString publisherName) (fun a =>
  cbind (get ext "extensionName") (fun extensionName =>
  cbind (ToString extensionName) (fun b =>
  Normal (a ++ "." ++ b)))))).

(** [ext.versions[0]?.files?.find(f => f.assetType === default_icon)?.source || ''] *)
Definition icon_of (ext : value) : completion value :=
  cbind (get ext "versions") (fun versions =>
  cbind (index versions 0) (fun first =>
  cbind
    (if nullish first then Normal Undefined else
     cbind (get first "files") (fun files =>
     if nullish files then Normal Undefined else
     cbind (array_receiver files "find") (fun items =>
     cbind (find (fun f => cbind (get f "assetType") (fun t =>
                           Normal (strict_eq_string t default_icon))) items)
           (fun hit =>
     if nullish hit then Normal Undefined else get hit "source"))))
    (fun source => Normal (or_else source (Str ""))))).

(** The body of [results.map(ext => ({ ... }))]. *)
Definition format (installedExtensions : list string) (ext : value)
  : completion summary :=
  cbind (get ext "displayName") (fun displayName_ =>
  cbind (get ext "publisher") (fun publisher =>
  cbind (get publisher "displayName") (fun publisherDisplayName_ =>
  cbind (get ext "shortDescription") (fun shortDescription_ =>
  cbind (full_id ext) (fun extensionId_ =>
  cbind (icon_of ext) (fun iconUrl_ =>
  cbind (full_id ext) (fun candidate =>
  Normal {| displayName := displayName_;
            publisherDisplayName := publisherDisplayName_;
            shortDescription := shortDescription_;
            extensionId := extensionId_;
            iconUrl := iconUrl_;
            isInstalled :=
              includes installedExtensions (toLowerCase candidate) |}))))))).

Definition generic_failure : string :=
  "Search failed. Please check your internet connection or try a different search term.".

(** The [errorMessage] the [catch] block settles on. *)
Definition errorMessage_of (error : thrown) : string :=
  match error with
  | AxiosError _ response request =>
      match response with
      | Some status =>
          if (status =? 404)%Z then
            "Marketplace API endpoint not found or changed. This extension may need an update."
          else if (status =? 400)%Z then
            "Invalid search request. The marketplace API might have changed its expected parameters."
          else if (status =? 500)%Z then
            "Internal server error from Marketplace API. Please try again later."
          else generic_failure
      | None =>
          if request
          then "Network error during search. Check your internet connection."
          else generic_failure
      end
  | _ => generic_failure
  end.

Section WithHost.
Variable h : host.

Definition resolveWebviewView (p : provider) (webviewView_ : webviewView)
  : provider :=
  {| _installerCmdPromise := _installerCmdPromise p;
     _installExtension := _installExtension p;
     _view := Some webviewView_ |}.

Definition searchMarketplace (p : provider) (query : string) : M unit :=
  match _view p with
  | None =>
      console_ Err "MarketplaceViewProvider: Webview view is not initialized."
  | Some _ =>
      if negb (truthy query) then
        postMessage (showInfo "Please enter a search term.")
      else
        console_ Log ("MarketplaceViewProvider: Searching marketplace for: "
                      ++ dquote ++ query ++ dquote) ;;
        postMessage setLoading ;;
        try_catch
          (data <- axios_post h query_url (query_body query) query_headers ;;
           results <- lift (cbind (get data "results") (fun all =>
                            cbind (index all 0) (fun first =>
                            get first "extensions"))) ;;
           count <- lift (cbind (get results "length") ToString) ;;
           console_ Log ("MarketplaceViewProvider: Found " ++ count
                         ++ " extensions.") ;;
           ids <- installed_ids ;;
           let installedExtensions := map toLowerCase ids in
           formattedExtensions <-
             lift (cbind (array_receiver results "map")
                         (cmap (format installedExtensions))) ;;
           postMessage (showResults formattedExtensions))
          (fun error =>
             console_ Err ("MarketplaceViewProvider: Marketplace search failed: "
                           ++ message_of error) ;;
             let errorMessage := errorMessage_of error in
             showErrorMessage ("Marketplace search failed: " ++ errorMessage) ;;
             postMessage (showError errorMessage))
  end.

(** The listener given to [webview.onDidReceiveMessage].  Neither
    [searchMarketplace] nor the install function is awaited. *)
Definition onDidReceiveMessage (p : provider) (m : Webview.host_message)
  : M unit :=
  console_ Log "MarketplaceViewProvider: Received message from webview" ;;
  match m with
  | Webview.Search value => call_async (searchMarketplace p value) ;; ret tt
  | Webview.Install value =>
      installerCmd <- await (_installerCmdPromise p) ;;
      if negb (truthy installerCmd) then
        showErrorMessage
          "Installer tool is not ready. Please wait for setup to complete."
      else
        call_async (_installExtension p (Some value) (Some installerCmd)) ;;
        ret tt
  end.

End WithHost.
End Provider.

(* ===================================================================== *)
(** * extension.js *)
(* ===================================================================== *)

Module Extension.
Section WithHost.
Variable h : host.

Definition getPythonCommand (venvPath : string) : string :=
  if win32 h then path_join h [venvPath; "Scripts"; "python.exe"]
  else path_join h [venvPath; "bin"; "python"].

Definition getInstallerCommand (venvPath : string) : string :=
  if win32 h then path_join h [venvPath; "Scripts"; "vsix-to-vscodium.exe"]
  else path_join h [venvPath; "bin"; "vsix-to-vscodium"].

Definition execPromise (command : string) : M (string * string) :=
  r <- exec h command ;;
  match r with
  | (Some err, _, stderr) =>
      throw (Error (message_of err ++ newline ++ stderr))
  | (None, stdout, stderr) => ret (stdout, stderr)
  end.

Definition python_not_found : string :=
  "Python is not installed or not in your PATH. Please install Python to use this extension.".

Definition findPython : M string :=
  try_catch
    (execPromise "python3 --version" ;; ret "python3")
    (fun _ =>
       try_catch
         (execPromise "python --version" ;; ret "python")
         (fun _ => throw (Error python_not_found))).

Definition ensureDependencies (storagePath : string) : M string :=
  let venvPath := path_join h [storagePath; ".venv"] in
  let installerPath := getInstallerCommand venvPath in
  found <- existsSync installerPath ;;
  if found then
    console_ Log "vsix-to-vscodium already installed." ;;
    ret installerPath
  else
    withProgress "Setting up Marketplace Installer dependencies..."
      (try_catch
         (pythonCmd <- findPython ;;
          progress_report "Creating Python virtual environment..." ;;
          execPromise (pythonCmd ++ " -m venv " ++ dquote ++ venvPath ++ dquote) ;;
          progress_report "Installing vsix-to-vscodium tool..." ;;
          let venvPython := getPythonCommand venvPath in
          execPromise (dquote ++ venvPython ++ dquote
                       ++ " -m pip install vsix-to-vscodium") ;;
          showInformationMessage h
            "Marketplace Installer setup complete! You can now search and install extensions."
            [] ;;
          ret installerPath)
         (fun error =>
            showErrorMessage
              ("Failed to set up Python dependencies: " ++ message_of error) ;;
            throw error)).

(** A string argument that may be missing: [None] is [undefined]. *)
Definition given (a : option string) : bool :=
  match a with Some s => truthy s | None => false end.

(** [`${a}`] *)
Definition text (a : option string) : string :=
  match a with Some s => s | None => "undefined" end.

Definition missing_id_or_path : string :=
  "Installation failed: Missing extension ID or installer command path.".

Definition installExtension (extensionId installerCmd : option string) : M unit :=
  if negb (given extensionId) || negb (given installerCmd) then
    showErrorMessage missing_id_or_path
  else
    withProgress ("Installing " ++ dquote ++ text extensionId ++ dquote ++ "...")
      (try_catch
         (let command :=
            dquote ++ text installerCmd ++ dquote ++ " " ++ text extensionId in
          console_ Log ("Executing installation command: " ++ command) ;;
          out <- execPromise command ;;
          let (stdout, stderr) := out in
          (if truthy stderr
           then console_ Warn ("Installation produced warnings/errors: " ++ stderr)
           else ret tt) ;;
          console_ Log ("Installation stdout: " ++ stdout) ;;
          selection <- showInformationMessage h
            ("Successfully installed " ++ dquote ++ text extensionId ++ dquote
             ++ "! Please reload your Codium window to activate the extension.")
            ["Reload Window"] ;;
          if is_reload selection
          then executeCommand "workbench.action.reloadWindow"
          else ret tt)
         (fun error =>
            console_ Err ("Error during installation of " ++ text extensionId
                          ++ ": " ++ message_of error) ;;
            showErrorMessage
              ("Installation Failed for " ++ dquote ++ text extensionId ++ dquote
               ++ ": " ++ message_of error))).


(** What [activate] leaves behind for the registered command and the
    view provider: the promise of the one setup it started. *)
Record activated := {
  dependencySetupPromise : promise string;
  view_provider : Provider.provider
}.

Definition activate (globalStorageUri_fsPath : string) : M activated :=
  console_ Log "Marketplace Installer extension is activating..." ;;
  let storagePath := globalStorageUri_fsPath in
  found <- existsSync storagePath ;;
  (if negb found then
     mkdirSync h storagePath ;;
     console_ Log ("Created storage directory: " ++ storagePath)
   else ret tt) ;;
  setup <- call_async (ensureDependencies storagePath) ;;
  let provider := Provider.constructor setup installExtension in
  console_ Log "MarketplaceViewProvider registered." ;;
  console_ Log ("Command " ++ dquote ++ "marketplace-installer.installFromInput"
                ++ dquote ++ " registered.") ;;
  ret {| dependencySetupPromise := setup; view_provider := provider |}.

(** The command [marketplace-installer.installFromInput]; [typed] is what
    the user submits in the input box. *)
Definition installFromInput (a : activated) (typed : list string) : M unit :=
  try_catch
    (installerCmd <- await (dependencySetupPromise a) ;;
     extensionId <- showInputBox
       "Enter the Visual Studio Marketplace extension ID"
       "e.g., publisher.extension-name" None typed ;;
     if given extensionId
     then installExtension extensionId (Some installerCmd)
     else ret tt)
    (fun error =>
       showErrorMessage ("Could not run installer: " ++ message_of error) ;;
       console_ Err ("Error from installFromInput command: " ++ message_of error)).

End WithHost.
End Extension.

(* ===================================================================== *)
(** * Regular expressions, as far as the identifier pattern needs them *)
(* ===================================================================== *)

Module RegExp.

Inductive regex :=
| Never
| Empty
| Unit (accepts : ascii -> bool)
| Seq (a b : regex)
| Alt (a b : regex)
| Star (a : regex).

(** [a+] *)
Definition Plus (a : regex) : regex := Seq a (Star a).

Fixpoint nullable (r : regex) : bool :=
  match r with
  | Never => false
  | Empty => true
  | Unit _ => false
  | Seq a b => nullable a && nullable b
  | Alt a b => nullable a || nullable b
  | Star _ => true
  end.

(** What is left of [r] after reading the code unit [c]. *)
Fixpoint derive (c : ascii) (r : regex) : regex :=
  match r with
  | Never => Never
  | Empty => Never
  | Unit accepts => if accepts c then Empty else Never
  | Seq a b =>
      if nullable a then Alt (Seq (derive c a) b) (derive c b)
      else Seq (derive c a) b
  | Alt a b => Alt (derive c a) (derive c b)
  | Star a => Seq (derive c a) (Star a)
  end.

(** [/^r$/.test(text)] *)
Fixpoint test (r : regex) (text : string) : bool :=
  match text with
  | EmptyString => nullable r
  | String c rest => test (derive c r) rest
  end.

(** The strings of a regular expression. *)
Inductive matches : regex -> string -> Prop :=
| matches_empty : matches Empty ""
| matches_unit accepts c : accepts c = true -> matches (Unit accepts) (String c "")
| matches_seq a b s t : matches a s -> matches b t -> matches (Seq a b) (s ++ t)
| matches_left a b s : matches a s -> matches (Alt a b) s
| matches_right a b s : matches b s -> matches (Alt a b) s
| matches_none a : matches (Star a) ""
| matches_more a s t : matches a s -> matches (Star a) t -> matches (Star a) (s ++ t).

(** Every code unit of a string passes a test. *)
Fixpoint every (accepts : ascii -> bool) (s : string) : bool :=
  match s with
  | EmptyString => true
  | String c r => accepts c && every accepts r
  end.

Definition between (lo hi : nat) (c : ascii) : bool :=
  ((lo <=? nat_of_ascii c) && (nat_of_ascii c <=? hi))%nat.

(** The class [[a-z0-9-]] under the [i] flag: among the code units below
    256 a letter of the other case is matched as well, and nothing else. *)
Definition id_unit (c : ascii) : bool :=
  between 97 122 c || between 65 90 c || between 48 57 c
  || (nat_of_ascii c =? 45)%nat.

Definition dot (c : ascii) : bool := (nat_of_ascii c =? 46)%nat.

(** [/^[a-z0-9-]+\.[a-z0-9-]+$/i] *)
Definition identifier : regex :=
  Seq (Plus (Unit id_unit)) (Seq (Unit dot) (Plus (Unit id_unit))).

End RegExp.

(* ===================================================================== *)
(** * The command-only extension.js (the variant beside the README) *)
(* ===================================================================== *)

Module CommandOnly.
Section WithHost.
Variable h : host.

(** [getPythonCommand], [getInstallerCommand], [execPromise] and
    [findPython] read the same in both files. *)
Definition ensureDependencies (storagePath : string) : M string :=
  let venvPath := path_join h [storagePath; ".venv"] in
  let installerPath := Extension.getInstallerCommand h venvPath in
  found <- existsSync installerPath ;;
  if found then
    console_ Log "Dependencies are already installed." ;;
    ret installerPath
  else
    withProgress "Setting up Python environment for Marketplace Installer..."
      (try_catch
         (pythonCmd <- Extension.findPython h ;;
          progress_report "Creating virtual environment..." ;;
          Extension.execPromise h (pythonCmd ++ " -m venv " ++ venvPath) ;;
          progress_report "Installing vsix-to-vscodium..." ;;
          let venvPython := Extension.getPythonCommand h venvPath in
          Extension.execPromise h
            (dquote ++ venvPython ++ dquote ++ " -m pip install vsix-to-vscodium") ;;
          showInformationMessage h "Marketplace Installer setup complete!" [] ;;
          ret installerPath)
         (fun error =>
            showErrorMessage
              ("Failed to set up Python dependencies: " ++ message_of error) ;;
            throw error)).

(** The variable [dependencySetupPromise] of [activate], which the
    command closes over: [None] is [null]. *)
Record closure := {
  storagePath : string;
  dependencySetupPromise : option (promise string)
}.

(** [activate], with the handler of [dependencySetupPromise.catch] run
    once the promise has settled. *)
Definition activate (globalStorageUri_fsPath : string) : M closure :=
  let storagePath := globalStorageUri_fsPath in
  found <- existsSync storagePath ;;
  (if negb found then mkdirSync h storagePath else ret tt) ;;
  setup <- call_async (ensureDependencies storagePath) ;;
  match setup with
  | Throw err =>
      console_ Err ("Initial dependency check failed. " ++ message_of err) ;;
      ret {| storagePath := storagePath; dependencySetupPromise := None |}
  | Normal _ =>
      ret {| storagePath := storagePath; dependencySetupPromise := Some setup |}
  end.

Definition validateInput (text : string) : option string :=
  if RegExp.test RegExp.identifier text then None
  else Some ("Invalid format. Use " ++ dquote ++ "publisher.extension-name"
             ++ dquote ++ ".").

(** The command [marketplace-installer.installExtension].  The assignment
    to [dependencySetupPromise] comes first and cannot throw (the call of
    an async function only makes a promise), so it is written before the
    [try]; the closure after the run is returned. *)
Definition installExtension_command (c : closure) (typed : list string)
  : M closure :=
  setup <- match dependencySetupPromise c with
           | None => call_async (ensureDependencies (storagePath c))
           | Some p => ret p
           end ;;
  try_catch
    (installerCmd <- await setup ;;
     extensionId <- showInputBox
       "Enter the Visual Studio Marketplace extension ID"
       "e.g., publisher.extension-name (like ms-python.python)"
       (Some validateInput) typed ;;
     match extensionId with
     | Some (String _ _ as id) =>
         withProgress ("Installing " ++ dquote ++ id ++ dquote ++ "...")
           (try_catch
              (let command := dquote ++ installerCmd ++ dquote ++ " " ++ id in
               out <- Extension.execPromise h command ;;
               let (stdout, stderr) := out in
               (if truthy stderr
                then console_ Warn ("Installation produced warnings: " ++ stderr)
                else ret tt) ;;
               console_ Log ("stdout: " ++ stdout) ;;
               selection <- showInformationMessage h
                 ("Successfully installed " ++ dquote ++ id ++ dquote
                  ++ "! Please reload to activate.")
                 ["Reload Window"] ;;
               if is_reload selection
               then executeCommand "workbench.action.reloadWindow"
               else ret tt)
              (fun error =>
                 showErrorMessage ("Installation Failed: " ++ message_of error)))
     | _ =>
         showInformationMessage h "Installation cancelled." [] ;; ret tt
     end)
    (fun error =>
       showErrorMessage ("Could not run installer: " ++ message_of error)) ;;
  ret {| storagePath := storagePath c; dependencySetupPromise := Some setup |}.

End WithHost.
End CommandOnly.

(* ===================================================================== *)
(** * What a run leaves to observe, and some hosts to run on *)
(* ===================================================================== *)

Module Observe.

(** The command lines of the child processes in a trace. *)
Fixpoint execs (t : list event) : list string :=
  match t with
  | [] => []
  | Exec command :: r => command :: execs r
  | _ :: r => execs r
  end.

(** The messages posted to the webview in a trace. *)
Fixpoint posts (t : list event) : list message :=
  match t with
  | [] => []
  | PostMessage m :: r => m :: posts r
  | _ :: r => posts r
  end.

(** The HTTP requests in a trace. *)
Fixpoint requests (t : list event) : list (string * value) :=
  match t with
  | [] => []
  | AxiosPost url body _ :: r => (url, body) :: requests r
  | _ :: r => requests r
  end.

(** The notifications that report a success or offer an action. *)
Fixpoint informations (t : list event) : list (string * list string) :=
  match t with
  | [] => []
  | ShowInformationMessage text items :: r => (text, items) :: informations r
  | _ :: r => informations r
  end.

(** The world after the events [es] and nothing else. *)
Definition noted (w : world) (es : list event) : world :=
  {| paths := paths w; extensions_all := extensions_all w; clock := clock w;
     trace := trace w ++ es; console := console w |}.

(** The world right after the process of [command] has run. *)
Definition ran (h : host) (w : world) (command : string) : world :=
  {| paths := snd (run h (clock w) (paths w) command);
     extensions_all := extensions_all w;
     clock := S (clock w);
     trace := trace w ++ [Exec command];
     console := console w |}.

(** The world after the console got [lines] and nothing else happened. *)
Definition logged (w : world) (lines : list (level * string)) : world :=
  {| paths := paths w; extensions_all := extensions_all w; clock := clock w;
     trace := trace w; console := console w ++ lines |}.

(** The command line of an install, its progress title and what the user
    is told at the end. *)
Definition install_command (installerCmd extensionId : string) : string :=
  dquote ++ installerCmd ++ dquote ++ " " ++ extensionId.




(** Where [ensureDependencies] looks for the installer. *)
Definition installer_under (h : host) (storagePath : string) : string :=
  Extension.getInstallerCommand h (path_join h [storagePath; ".venv"]).

Definition could_not_run (e : thrown) : string :=
  "Could not run installer: " ++ message_of e.

(** The world after the command [installFromInput] has been run once for
    each of [inputs], one run after the other. *)
Fixpoint after_runs (h : host) (a : Extension.activated)
    (inputs : list (list string)) (w : world) : world :=
  match inputs with
  | [] => w
  | typed :: later =>
      after_runs h a later (snd (Extension.installFromInput h a typed w))
  end.

Definition input_box : event :=
  ShowInputBox "Enter the Visual Studio Marketplace extension ID"
               "e.g., publisher.extension-name".

(** [response.data.results[0].extensions] *)
Definition extensions_of (data : value) : completion value :=
  cbind (get data "results") (fun all =>
  cbind (index all 0) (fun first => get first "extensions")).

(** What the [try] block of [searchMarketplace] comes to for a query, in
    a world: the entries to show, or what was thrown on the way. *)
Definition search_result (h : host) (w : world) (query : string)
  : completion (list summary) :=
  cbind (fst (axios_post h Provider.query_url (Provider.query_body query)
                Provider.query_headers w)) (fun data =>
  cbind (extensions_of data) (fun results =>
  cbind (cbind (get results "length") ToString) (fun _ =>
  cbind (array_receiver results "map")
        (cmap (Provider.format (map toLowerCase (extensions_all w))))))).

(** The one request of a search. *)
Definition search_request (query : string) : event :=
  AxiosPost Provider.query_url (Provider.query_body query) Provider.query_headers.

(** What a search adds to the trace after the request. *)
Definition search_ending (r : completion (list summary)) : list event :=
  match r with
  | Normal found => [PostMessage (showResults found)]
  | Throw e =>
      [ShowErrorMessage ("Marketplace search failed: " ++ Provider.errorMessage_of e);
       PostMessage (showError (Provider.errorMessage_of e))]
  end.

(** [f.assetType === default_icon], for a file [f] that can be read. *)
Definition is_icon (f : value) : bool :=
  match get f "assetType" with
  | Normal t => strict_eq_string t Provider.default_icon
  | Throw _ => false
  end.

(** Where the [iconUrl] of an entry comes from: nothing when the version
    list has no first version, when that version has no file list, or
    when no file of the list is tagged as the default icon; otherwise the
    [source] of the first file so tagged, or nothing when that is falsy. *)
Inductive icon_from (ext : value) : value -> Prop :=
| no_first_version versions first :
    get ext "versions" = Normal versions ->
    index versions 0 = Normal first ->
    nullish first = true ->
    icon_from ext (Str "")
| no_file_list versions first files :
    get ext "versions" = Normal versions ->
    index versions 0 = Normal first ->
    get first "files" = Normal files ->
    nullish files = true ->
    icon_from ext (Str "")
| no_icon_file versions first items :
    get ext "versions" = Normal versions ->
    index versions 0 = Normal first ->
    get first "files" = Normal (Arr items) ->
    (forall f, In f items -> is_icon f = false) ->
    icon_from ext (Str "")
| first_icon_file versions first before f after source :
    get ext "versions" = Normal versions ->
    index versions 0 = Normal first ->
    get first "files" = Normal (Arr (before ++ f :: after)) ->
    (forall g, In g before -> is_icon g = false) ->
    is_icon f = true ->
    get f "source" = Normal source ->
    icon_from ext (or_else source (Str "")).

(** [body.filters[0][key]] *)
Definition first_filter (body : value) (key : string) : completion value :=
  cbind (get body "filters") (fun filters =>
  cbind (index filters 0) (fun first => get first key)).

End Observe.
Import Observe.

Module Scenario.

Definition posix_join (parts : list string) : string := String.concat "/" parts.

Definition finished (code : Z) (out err : string) : process :=
  {| exit_code := code; stdout := out; stderr := err |}.

(** A machine without Python, where every command fails. *)
Definition bare : host :=
  {| win32 := false;
     path_join := posix_join;
     run := fun _ ps _ => (finished 127 "" "command not found", ps);
     refuses := fun _ _ => None;
     picks := fun _ _ => None;
     serves := fun _ _ _ => NoResponse |}.

(** A machine where every command succeeds, with a warning on stderr, and
    the marketplace answers with [data]. *)
Definition healthy (data : value) : host :=
  {| win32 := false;
     path_join := posix_join;
     run := fun _ ps _ => (finished 0 "done" "warning: deprecated", ps);
     refuses := fun _ _ => None;
     picks := fun _ _ => Some "Reload Window";
     serves := fun _ _ _ => Responded data |}.

Definition world_with (ps ids : list string) : world :=
  {| paths := ps; extensions_all := ids; clock := 0; trace := []; console := [] |}.

Definition installer : string := "/store/.venv/bin/vsix-to-vscodium".

(** What [activate] leaves on the machine without Python, and on the
    healthy one when the installer is already there. *)
Definition stuck : Extension.activated :=
  {| Extension.dependencySetupPromise := Throw (Error Extension.python_not_found);
     Extension.view_provider :=
       Provider.constructor (Throw (Error Extension.python_not_found))
         (Extension.installExtension bare) |}.

Definition ready : Extension.activated :=
  {| Extension.dependencySetupPromise := Normal installer;
     Extension.view_provider :=
       Provider.constructor (Normal installer)
         (Extension.installExtension (healthy Null)) |}.

Definition icon_file : value :=
  Obj [("assetType", Str Provider.default_icon);
       ("source", Str "https://cdn.example/icon.png")].

Definition manifest_file : value :=
  Obj [("assetType", Str "Microsoft.VisualStudio.Code.Manifest");
       ("source", Str "https://cdn.example/package.json")].

Definition entry (publisherName extensionName : string)
    (more : list (string * value)) : value :=
  Obj ([("displayName", Str extensionName);
        ("publisher", Obj [("displayName", Str publisherName);
                           ("publisherName", Str publisherName)]);
        ("extensionName", Str extensionName);
        ("shortDescription", Str "")] ++ more).

(** An entry with an icon, one whose version list is empty, and one that
    has no version list. *)
Definition python_entry : value :=
  entry "MS-Python" "Python"
    [("versions", Arr [Obj [("files", Arr [manifest_file; icon_file])]])].

Definition plain_entry : value := entry "acme" "plain" [("versions", Arr [])].

Definition versionless_entry : value := entry "acme" "bare" [].

Definition response (entries : list value) : value :=
  Obj [("results", Arr [Obj [("extensions", Arr entries)]])].

Definition resolved : Provider.provider :=
  Provider.resolveWebviewView
    (Provider.constructor (Normal installer)
       (Extension.installExtension (healthy Null)))
    Provider.WebviewView.

Definition page_with (text : string) : Webview.page :=
  {| Webview.searchInput_value := text;
     Webview.resultsContainer_innerHTML := "";
     Webview.posted := [] |}.

End Scenario.

(* ===================================================================== *)
(** * media/main.js: the message listener and the list of results *)
(* ===================================================================== *)

Module Panel.
Import Webview.

(** What a function given to an element does when it is called: post a
    message to the extension host, or (the [onerror] of an icon) clear
    itself and put another [src]. *)
Inductive handler :=
| Posts (m : host_message)
| Replaces_src (src : string).

(** An element as the script builds it: its tag, its class, the values
    assigned to its properties, to its [style], the functions attached to
    it by event type, and the children appended to it, all in the order
    of the assignments. *)
Inductive element :=
| Element (tagName className : string)
          (properties : list (string * value))
          (style : list (string * value))
          (handlers : list (string * handler))
          (children : list element).

(** What the results container holds: the markup last assigned to its
    [innerHTML], or, after the markup was cleared, the children appended. *)
Inductive content :=
| Markup (html : string)
| Appended (children : list element).

Definition no_icon : string :=
  "https://placehold.co/48x48/cccccc/000000?text=No+Icon".

Definition error_icon : string :=
  "https://placehold.co/48x48/cccccc/000000?text=Error".

(** The [style] of a description; [maxLines * lineHeight] is 2.6. *)
Definition two_lines : list (string * value) :=
  [("maxHeight", Str "2.6em");
   ("overflow", Str "hidden");
   ("textOverflow", Str "ellipsis");
   ("display", Str "-webkit-box");
   ("webkitLineClamp", Num 2);
   ("webkitBoxOrient", Str "vertical")].

Definition icon_of_entry (ext : summary) : element :=
  Element "img" "extension-icon"
    [("src", or_else (iconUrl ext) (Str no_icon))] []
    [("error", Replaces_src error_icon)] [].

(** The body of [extensions.forEach(ext => { ... })]: the [li] appended
    to the list. *)
Definition item (ext : summary) : element :=
  let icon := icon_of_entry ext in
  let name := Element "h3" EmptyString [("textContent", displayName ext)] [] [] [] in
  let publisher :=
    Element "p" "publisher" [("textContent", publisherDisplayName ext)] [] [] [] in
  let description :=
    Element "p" "description" [("textContent", shortDescription ext)]
            two_lines [] [] in
  let details :=
    Element "div" "extension-details" [] [] [] [name; publisher; description] in
  let installButton :=
    Element "button" "install-button" [("textContent", Str "Install")] []
            [("click", Posts (Install (extensionId ext)))] [] in
  Element "li" "extension-item" [] [] [] [icon; details; installButton].

(** [renderResults(extensions)]; [None] is a missing argument. *)
Definition renderResults (extensions : option (list summary)) : content :=
  match extensions with
  | None | Some [] => Markup "<p>No extensions found.</p>"
  | Some exts => Appended [Element "ul" EmptyString [] [] [] (map item exts)]
  end.

(** The listener of [window.addEventListener('message', ...)]. *)
Definition onMessage (m : message) (c : content) : content :=
  match m with
  | setLoading => Markup "<p>Loading...</p>"
  | showResults value => renderResults (Some value)
  | showError value =>
      Markup ("<p class=" ++ dquote ++ "error" ++ dquote ++ ">" ++ value ++ "</p>")
  | showInfo text =>
      Markup ("<p id=" ++ dquote ++ "info-message" ++ dquote ++ ">" ++ text ++ "</p>")
  end.

(** An element and everything below it, in document order. *)
Fixpoint descendants (e : element) : list element :=
  match e with
  | Element _ _ _ _ _ children => e :: flat_map descendants children
  end.

Definition elements (c : content) : list element :=
  match c with
  | Markup _ => []
  | Appended children => flat_map descendants children
  end.

Definition tag (e : element) : string :=
  match e with Element t _ _ _ _ _ => t end.

Definition property (key : string) (e : element) : value :=
  match e with Element _ _ properties _ _ _ => lookup key properties end.

(** What a click on an element posts: a disabled element gets no click,
    and the others run their [click] listeners. *)
Definition click (e : element) : list host_message :=
  match e with
  | Element _ _ properties _ handlers _ =>
      if ToBoolean (lookup "disabled" properties) then []
      else flat_map (fun kh =>
                       match kh with
                       | ("click", Posts m) => [m]
                       | _ => []
                       end) handlers
  end.

(** What the user can send by clicking through the buttons of the
    container from top to bottom, and the [src] of the images shown. *)
Definition offers (c : content) : list host_message :=
  flat_map click (filter (fun e => (tag e =? "button")%string) (elements c)).

Definition images (c : content) : list value :=
  map (property "src") (filter (fun e => (tag e =? "img")%string) (elements c)).

Definition rows (c : content) : list element :=
  filter (fun e => (tag e =? "li")%string) (elements c).

End Panel.

(* ===================================================================== *)
(** * The later main.js: results that know what is installed *)
(* ===================================================================== *)

Module PanelInstalled.
Import Webview Panel.

Definition installed_style : list (string * value) :=
  [("backgroundColor", Str "var(--vscode-button-secondaryBackground)");
   ("color", Str "var(--vscode-button-secondaryForeground)");
   ("cursor", Str "default")].

Definition item (ext : summary) : element :=
  let icon := icon_of_entry ext in
  let name := Element "h3" EmptyString [("textContent", displayName ext)] [] [] [] in
  let publisherCode :=
    Element "p" "publisher-code"
      [("innerHTML", Str ("<code>" ++ extensionId ext ++ "</code>"))] [] [] [] in
  let publisherName :=
    Element "p" "publisher-name"
      [("textContent", publisherDisplayName ext)] [] [] [] in
  let description :=
    Element "p" "description" [("textContent", shortDescription ext)]
            two_lines [] [] in
  let installButton :=
    if isInstalled ext then
      Element "button" "install-button"
        [("textContent", Str "Installed"); ("disabled", Bool true)]
        installed_style [] []
    else
      Element "button" "install-button"
        [("textContent", Str "Install"); ("disabled", Bool false)] []
        [("click", Posts (Install (extensionId ext)))] [] in
  let details :=
    Element "div" "extension-details" [] [] []
            [name; publisherCode; publisherName; description] in
  Element "li" "extension-item" [] [] [] [icon; details; installButton].

Definition renderResults (extensions : option (list summary)) : content :=
  match extensions with
  | None | Some [] => Markup "<p>No extensions found.</p>"
  | Some exts => Appended [Element "ul" EmptyString [] [] [] (map item exts)]
  end.

End PanelInstalled.

(* ===================================================================== *)
(** * The extension.js that installs from a bundled source tree *)
(* ===================================================================== *)

Module Bundled.
Section WithHost.
Variable h : host.

(** The processes of [exec(command, { cwd })]: what [run] is for a process
    started in the directory [cwd]. *)
Variable run_in :
  string -> nat -> list string -> string -> process * list string.

(** [execPromise(command, { cwd })] *)
Definition execPromise_in (command cwd : string) : M (string * string) :=
  fun w =>
    let (p, paths') := run_in cwd (clock w) (paths w) command in
    let w' :=
      {| paths := paths'; extensions_all := extensions_all w;
         clock := S (clock w); trace := trace w ++ [Exec command];
         console := console w |} in
    if (exit_code p =? 0)%Z then (Normal (stdout p, stderr p), w')
    else (Throw (Error (("Command failed: " ++ command ++ newline ++ stderr p)
                        ++ newline ++ stderr p)), w').

Definition source_under (extensionPath : string) : string :=
  path_join h [extensionPath; "python_src"; "vsix-to-vscodium"].

Definition missing_source (sourcePath : string) : string :=
  "Missing vsix-to-vscodium source directory: " ++ sourcePath
  ++ ". Please ensure the 'python_src/vsix-to-vscodium' folder is present in your extension.".

Definition ensureDependencies (storagePath extensionPath : string) : M string :=
  let venvPath := path_join h [storagePath; ".venv"] in
  let installerPath := Extension.getInstallerCommand h venvPath in
  let vsixToVscodiumSourcePath := source_under extensionPath in
  found <- existsSync installerPath ;;
  if found then
    console_ Log "vsix-to-vscodium already installed." ;;
    ret installerPath
  else
    bundled <- existsSync vsixToVscodiumSourcePath ;;
    if negb bundled then
      showErrorMessage (missing_source vsixToVscodiumSourcePath) ;;
      throw (Error "vsix-to-vscodium source not found.")
    else
      withProgress "Setting up Marketplace Installer dependencies..."
        (try_catch
           (pythonCmd <- Extension.findPython h ;;
            progress_report "Creating Python virtual environment..." ;;
            Extension.execPromise h
              (pythonCmd ++ " -m venv " ++ dquote ++ venvPath ++ dquote) ;;
            progress_report "Installing vsix-to-vscodium from local source..." ;;
            let venvPython := Extension.getPythonCommand h venvPath in
            execPromise_in (dquote ++ venvPython ++ dquote ++ " -m pip install -e .")
                           vsixToVscodiumSourcePath ;;
            showInformationMessage h
              "Marketplace Installer setup complete! You can now search and install extensions."
              [] ;;
            ret installerPath)
           (fun error =>
              showErrorMessage
                ("Failed to set up Python dependencies: " ++ message_of error) ;;
              throw error)).

End WithHost.
End Bundled.

(* ===================================================================== *)
(** * More to observe, and more machines *)
(* ===================================================================== *)

Module Watch.

(** The texts of the error notifications in a trace. *)
Fixpoint errors (t : list event) : list string :=
  match t with
  | [] => []
  | ShowErrorMessage text :: r => text :: errors r
  | _ :: r => errors r
  end.

Definition python3_probe : string := "python3 --version".
Definition python_probe : string := "python --version".

(** The two commands of a setup, for the Python found. *)
Definition venv_command (h : host) (pythonCmd storagePath : string) : string :=
  pythonCmd ++ " -m venv " ++ dquote ++ path_join h [storagePath; ".venv"] ++ dquote.

Definition pip_command (h : host) (storagePath : string) : string :=
  dquote ++ Extension.getPythonCommand h (path_join h [storagePath; ".venv"])
  ++ dquote ++ " -m pip install vsix-to-vscodium".

Definition setup_complete : string :=
  "Marketplace Installer setup complete! You can now search and install extensions.".

Definition setup_failed (e : thrown) : string :=
  "Failed to set up Python dependencies: " ++ message_of e.

(** Node's message for a failed command, with the stderr that
    [execPromise] appends. *)
Definition command_failed (command diagnostics : string) : thrown :=
  Error (("Command failed: " ++ command ++ newline ++ diagnostics)
         ++ newline ++ diagnostics).

(** The world in which [activate] calls [ensureDependencies]. *)
Definition activating (fsPath : string) (w : world) : world :=
  if includes (paths w) fsPath then
    logged w [(Log, "Marketplace Installer extension is activating...")]
  else
    {| paths := fsPath :: paths w; extensions_all := extensions_all w;
       clock := clock w; trace := trace w ++ [MkdirSync fsPath];
       console := console w
                  ++ [(Log, "Marketplace Installer extension is activating...");
                      (Log, "Created storage directory: " ++ fsPath)] |}.

(** A machine that has [python] but no [python3]; every other command
    succeeds. *)
Definition python_only : host :=
  {| win32 := false;
     path_join := Scenario.posix_join;
     run := fun _ ps command =>
              if (command =? python3_probe)%string
              then (Scenario.finished 127 "" "python3: not found", ps)
              else (Scenario.finished 0 "ok" "", ps);
     refuses := fun _ _ => None;
     picks := fun _ _ => None;
     serves := fun _ _ _ => NoResponse |}.

(** A machine with Python on which the second process, the creation of
    the environment, fails. *)
Definition no_venv : host :=
  {| win32 := false;
     path_join := Scenario.posix_join;
     run := fun n ps _ =>
              if (n =? 1)%nat
              then (Scenario.finished 1 "" "ensurepip is not available", ps)
              else (Scenario.finished 0 "ok" "", ps);
     refuses := fun _ _ => None;
     picks := fun _ _ => None;
     serves := fun _ _ _ => NoResponse |}.

(** A machine that has [python] but no [python3], on which the creation
    of the environment fails. *)
Definition python_only_no_venv : host :=
  {| win32 := false;
     path_join := Scenario.posix_join;
     run := fun _ ps command =>
              if (command =? python3_probe)%string
              then (Scenario.finished 127 "" "python3: not found", ps)
              else if (command =? python_probe)%string
              then (Scenario.finished 0 "Python 3.12.1" "", ps)
              else (Scenario.finished 1 "" "ensurepip is not available", ps);
     refuses := fun _ _ => None;
     picks := fun _ _ => None;
     serves := fun _ _ _ => NoResponse |}.

(** A machine on which the storage directory cannot be made. *)
Definition read_only : host :=
  {| win32 := false;
     path_join := Scenario.posix_join;
     run := fun _ ps _ => (Scenario.finished 0 "ok" "", ps);
     refuses := fun _ _ => Some (Error "EACCES: permission denied, mkdir");
     picks := fun _ _ => None;
     serves := fun _ _ _ => NoResponse |}.

(** The progress notification of a setup. *)
Definition setup_progress : event :=
  WithProgress "Setting up Marketplace Installer dependencies...".

(** A marketplace that answers every request with a status. *)
Definition answering (st : Z) : host :=
  {| win32 := false;
     path_join := Scenario.posix_join;
     run := fun _ ps _ => (Scenario.finished 0 "ok" "", ps);
     refuses := fun _ _ => None;
     picks := fun _ _ => None;
     serves := fun _ _ _ => Status st |}.

(** The entries of an argument of [renderResults]. *)
Definition listed (extensions : option (list summary)) : list summary :=
  match extensions with Some exts => exts | None => [] end.

Definition rejected_closure : CommandOnly.closure :=
  {| CommandOnly.storagePath := "/store";
     CommandOnly.dependencySetupPromise :=
       Some (Throw (Error Extension.python_not_found)) |}.

Definition resolved_closure : CommandOnly.closure :=
  {| CommandOnly.storagePath := "/store";
     CommandOnly.dependencySetupPromise := Some (Normal Scenario.installer) |}.

End Watch.

(* ===================================================================== *)
(** * Properties of media/main.js *)
(* ===================================================================== *)

Module WebviewFacts.
Import Webview.

(** C8.  When the trimmed text of the search box is empty, [performSearch]
    makes the results container hold one paragraph, with the id
    [info-message] and the text "Please enter a search term.", and posts
    nothing to the extension host. *)
Theorem performSearch_blank (p : page) :
  trim (searchInput_value p) = "" ->
  resultsContainer_innerHTML (performSearch p)
  = "<p id=" ++ String (ascii_of_nat 34) "info-message"
    ++ String (ascii_of_nat 34) ">" ++ "Please enter a search term." ++ "</p>"
  /\ posted (performSearch p) = posted p.
Proof.
  intros blank. unfold performSearch. rewrite blank. cbn. split; reflexivity.
Qed.

Lemma performSearch_blank_witness :
  trim (searchInput_value (Scenario.page_with "  ")) = ""
  /\ resultsContainer_innerHTML (performSearch (Scenario.page_with "  "))
     = "<p id=" ++ String (ascii_of_nat 34) "info-message"
       ++ String (ascii_of_nat 34) ">" ++ "Please enter a search term." ++ "</p>"
  /\ posted (performSearch (Scenario.page_with "  ")) = [].
Proof.
  split; [reflexivity | apply (performSearch_blank (Scenario.page_with "  ")); reflexivity].
Defined.

(** Otherwise the trimmed text goes to the host in one [search] message and
    the page is left as it is. *)
Lemma performSearch_query (p : page) :
  trim (searchInput_value p) <> "" ->
  posted (performSearch p)
  = (posted p ++ [Search (trim (searchInput_value p))])%list
  /\ resultsContainer_innerHTML (performSearch p) = resultsContainer_innerHTML p.
Proof.
  intros some. unfold performSearch.
  destruct (trim (searchInput_value p)); [congruence | cbn; split; reflexivity].
Qed.

End WebviewFacts.

(* ===================================================================== *)
(** * Stepping through a run *)
(* ===================================================================== *)

Module Steps.
Import Extension.

Lemma execs_app (a b : list event) : execs (a ++ b) = (execs a ++ execs b)%list.
Proof.
  induction a as [|e a IH]; [reflexivity|].
  destruct e; cbn; rewrite IH; reflexivity.
Qed.

Lemma informations_app (a b : list event) :
  informations (a ++ b) = (informations a ++ informations b)%list.
Proof.
  induction a as [|e a IH]; [reflexivity|].
  destruct e; cbn; rewrite IH; reflexivity.
Qed.

Lemma posts_app (a b : list event) : posts (a ++ b) = (posts a ++ posts b)%list.
Proof.
  induction a as [|e a IH]; [reflexivity|].
  destruct e; cbn; rewrite IH; reflexivity.
Qed.

Lemma requests_app (a b : list event) :
  requests (a ++ b) = (requests a ++ requests b)%list.
Proof.
  induction a as [|e a IH]; [reflexivity|].
  destruct e; cbn; rewrite IH; reflexivity.
Qed.

Lemma execPromise_zero (h : host) (command : string) (w : world) :
  let p := fst (run h (clock w) (paths w) command) in
  exit_code p = 0%Z ->
  execPromise h command w = (Normal (stdout p, stderr p), ran h w command).
Proof.
  intros p code. subst p. unfold execPromise, bind, exec, ran.
  destruct (run h (clock w) (paths w) command) as [p ps]. cbn [fst snd] in *.
  rewrite code. reflexivity.
Qed.

Lemma execPromise_nonzero (h : host) (command : string) (w : world) :
  let p := fst (run h (clock w) (paths w) command) in
  exit_code p <> 0%Z ->
  execPromise h command w
  = (Throw (Error (("Command failed: " ++ command ++ newline ++ stderr p)
                   ++ newline ++ stderr p)),
     ran h w command).
Proof.
  intros p code. subst p. unfold execPromise, bind, exec, ran.
  destruct (run h (clock w) (paths w) command) as [p ps]. cbn [fst snd] in *.
  apply Z.eqb_neq in code. rewrite code. reflexivity.
Qed.

Ltac fields := cbn [fst snd paths clock trace console extensions_all].

Ltac steps :=
  cbv beta iota delta
    [withProgress try_catch bind console_ emit ret throw await call_async
     showErrorMessage showInformationMessage executeCommand progress_report
     showInputBox existsSync mkdirSync postMessage installed_ids lift text];
  fields.

Ltac traces :=
  rewrite ?execs_app, ?informations_app, ?posts_app, ?requests_app;
  cbn [execs informations posts requests];
  rewrite <- ?app_assoc, ?app_nil_r;
  cbn [app].

End Steps.
Import Steps.

(* ===================================================================== *)
(** * Reading a command line *)
(* ===================================================================== *)

Module ShellFacts.
Import Shell.







End ShellFacts.

(* ===================================================================== *)
(** * Properties of extension.js *)
(* ===================================================================== *)

Module ExtensionFacts.
Import Extension.

(** C7.  With the identifier or the installer path missing or empty,
    [installExtension] shows the one error "Installation failed: Missing
    extension ID or installer command path." and returns: nothing else
    happens, and no process is started. *)
Theorem installExtension_missing_argument
    (h : host) (extensionId installerCmd : option string) (w : world) :
  given extensionId = false \/ given installerCmd = false ->
  installExtension h extensionId installerCmd w
  = (Normal tt, noted w [ShowErrorMessage missing_id_or_path])
  /\ execs (trace (snd (installExtension h extensionId installerCmd w)))
     = execs (trace w)
  /\ clock (snd (installExtension h extensionId installerCmd w)) = clock w.
Proof.
  intros missing.
  assert (E : installExtension h extensionId installerCmd w
              = (Normal tt, noted w [ShowErrorMessage missing_id_or_path])).
  { unfold installExtension.
    destruct missing as [-> | ->]; cbn [negb orb];
      rewrite ?orb_true_r; reflexivity. }
  rewrite E. cbn. rewrite execs_app. cbn. rewrite app_nil_r. auto.
Qed.

Lemma installExtension_missing_argument_witness :
  installExtension Scenario.bare (Some "") (Some Scenario.installer)
    (Scenario.world_with [] [])
  = (Normal tt,
     noted (Scenario.world_with [] []) [ShowErrorMessage missing_id_or_path]).
Proof.
  apply (installExtension_missing_argument Scenario.bare (Some "")
           (Some Scenario.installer) (Scenario.world_with [] [])).
  left. reflexivity.
Defined.




(** With both arguments given, [installExtension] returns normally after
    one process, whatever its exit code. *)
Lemma installExtension_one_process
    (h : host) (extensionId installerCmd : string) (w : world) :
  truthy extensionId = true ->
  truthy installerCmd = true ->
  fst (installExtension h (Some extensionId) (Some installerCmd) w) = Normal tt
  /\ execs (trace (snd (installExtension h (Some extensionId)
                          (Some installerCmd) w)))
     = (execs (trace w) ++ [install_command installerCmd extensionId])%list.
Proof.
  intros Hid Hcmd.
  assert (G : negb (given (Some extensionId)) || negb (given (Some installerCmd))
              = false).
  { cbn [given]. rewrite Hid, Hcmd. reflexivity. }
  unfold installExtension. rewrite G. steps.
  fold (install_command installerCmd extensionId).
  set (command := install_command installerCmd extensionId).
  set (p := fst (run h (clock w) (paths w) command)).
  destruct (Z.eq_dec (exit_code p) 0) as [zero|nonzero].
  - rewrite execPromise_zero; [|exact zero]. fields. fold p. unfold ran. fields.
    destruct (truthy (stderr p)); fields;
      match goal with |- context [is_reload ?x] => destruct (is_reload x) end;
      fields; traces; split; reflexivity.
  - rewrite execPromise_nonzero; [|exact nonzero]. fields. unfold ran.
    fields. traces. split; reflexivity.
Qed.

(** C2.  When the installer exists under the storage path,
    [ensureDependencies] returns its path at once: it writes one line to
    the console and does nothing else.  A second call right after the
    first does the same, so that the two calls together start no process,
    show nothing and leave the files as they were. *)
Theorem ensureDependencies_installed
    (h : host) (storagePath : string) (w : world) :
  includes (paths w) (installer_under h storagePath) = true ->
  let line := (Log, "vsix-to-vscodium already installed.") in
  ensureDependencies h storagePath w
  = (Normal (installer_under h storagePath), logged w [line])
  /\ ensureDependencies h storagePath (logged w [line])
     = (Normal (installer_under h storagePath), logged (logged w [line]) [line])
  /\ trace (logged (logged w [line]) [line]) = trace w
  /\ paths (logged (logged w [line]) [line]) = paths w
  /\ clock (logged (logged w [line]) [line]) = clock w.
Proof.
  intros present line.
  assert (once : forall u, paths u = paths w ->
            ensureDependencies h storagePath u
            = (Normal (installer_under h storagePath), logged u [line])).
  { intros u same. unfold ensureDependencies. steps.
    fold (installer_under h storagePath). rewrite same, present.
    reflexivity. }
  split; [apply once; reflexivity|].
  split; [apply once; reflexivity|].
  repeat split; reflexivity.
Qed.

Lemma ensureDependencies_installed_witness :
  ensureDependencies Scenario.bare "/store"
    (Scenario.world_with [Scenario.installer] [])
  = (Normal Scenario.installer,
     logged (Scenario.world_with [Scenario.installer] [])
            [(Log, "vsix-to-vscodium already installed.")]).
Proof.
  apply (ensureDependencies_installed Scenario.bare "/store"
           (Scenario.world_with [Scenario.installer] [])).
  reflexivity.
Defined.

(** One run of the command after a rejected setup: the old error is shown
    and logged, and that is all. *)
Lemma installFromInput_rejected
    (h : host) (a : activated) (e : thrown) (typed : list string) (w : world) :
  dependencySetupPromise a = Throw e ->
  installFromInput h a typed w
  = (Normal tt,
     logged (noted w [ShowErrorMessage (could_not_run e)])
            [(Err, "Error from installFromInput command: " ++ message_of e)]).
Proof.
  intros rejected. unfold installFromInput. steps. rewrite rejected. reflexivity.
Qed.

(** C1, in extension.js.  Once the setup that [activate] started has been
    rejected, the promise the command reads stays the rejected one: however
    often the command is run afterwards, each run only shows "Could not run
    installer" with the error of that first attempt, and no process is
    started, so nothing is provisioned again. *)
Theorem installFromInput_never_retries
    (h : host) (a : activated) (e : thrown) (inputs : list (list string))
    (w : world) :
  dependencySetupPromise a = Throw e ->
  trace (after_runs h a inputs w)
  = (trace w ++ repeat (ShowErrorMessage (could_not_run e)) (List.length inputs))%list
  /\ execs (trace (after_runs h a inputs w)) = execs (trace w)
  /\ paths (after_runs h a inputs w) = paths w.
Proof.
  intros rejected. revert w.
  induction inputs as [|typed later IH]; intros w; cbn [after_runs].
  - cbn. rewrite app_nil_r. auto.
  - rewrite (installFromInput_rejected h a e typed w rejected). cbn [snd].
    destruct (IH (logged (noted w [ShowErrorMessage (could_not_run e)])
                    [(Err, "Error from installFromInput command: "
                           ++ message_of e)]))
      as (shown & quiet & files).
    cbn [logged noted trace paths] in shown, quiet, files.
    split; [|split].
    + rewrite shown. cbn [List.length repeat]. rewrite <- app_assoc. reflexivity.
    + rewrite quiet. traces. reflexivity.
    + exact files.
Qed.

(** On a machine without Python the setup of [activate] is rejected, and
    two runs of the command later there still are only the two processes
    of that first attempt. *)
Lemma installFromInput_never_retries_witness :
  let w0 := Scenario.world_with ["/store"] [] in
  let w1 := snd (activate Scenario.bare "/store" w0) in
  let twice := [["ms-python.python"]; ["ms-python.python"]] in
  fst (activate Scenario.bare "/store" w0) = Normal Scenario.stuck
  /\ execs (trace w1) = ["python3 --version"; "python --version"]
  /\ execs (trace (after_runs Scenario.bare Scenario.stuck twice w1))
     = ["python3 --version"; "python --version"].
Proof.
  cbv zeta. split; [reflexivity|]. split; [reflexivity|].
  apply (installFromInput_never_retries Scenario.bare Scenario.stuck
           (Error python_not_found) [["ms-python.python"]; ["ms-python.python"]]
           (snd (activate Scenario.bare "/store" (Scenario.world_with ["/store"] [])))).
  reflexivity.
Defined.

(** The view provider holds the same promise: an [install] message after a
    failed setup ends in the old error too, before anything is run. *)
Lemma install_message_after_failed_setup
    (h : host) (p : Provider.provider) (e : thrown) (id : string) (w : world) :
  Provider._installerCmdPromise p = Throw e ->
  fst (Provider.onDidReceiveMessage h p (Webview.Install id) w) = Throw e
  /\ trace (snd (Provider.onDidReceiveMessage h p (Webview.Install id) w))
     = trace w.
Proof.
  intros rejected. unfold Provider.onDidReceiveMessage. steps.
  rewrite rejected. split; reflexivity.
Qed.

(** C6, in extension.js.  The input box of [installFromInput] has no
    validator: whatever non-empty text the user submits first is handed to
    the installer as it is. *)
Theorem installFromInput_takes_any_text
    (h : host) (a : activated) (installerCmd text : string)
    (rest : list string) (w : world) :
  dependencySetupPromise a = Normal installerCmd ->
  truthy installerCmd = true ->
  truthy text = true ->
  fst (installFromInput h a (text :: rest) w) = Normal tt
  /\ execs (trace (snd (installFromInput h a (text :: rest) w)))
     = (execs (trace w) ++ [install_command installerCmd text])%list.
Proof.
  intros resolved Hcmd Htext.
  unfold installFromInput. steps. rewrite resolved.
  cbn [List.find given]. rewrite Htext.
  destruct (installExtension_one_process h text installerCmd
              (noted w [input_box]) Htext Hcmd) as [done one].
  unfold noted, input_box in done, one.
  destruct (installExtension h (Some text) (Some installerCmd) _) as [c u].
  cbn [fst snd] in *. subst c. split; [reflexivity|].
  cbn [fst snd]. rewrite one. cbn [trace]. traces. reflexivity.
Qed.

Lemma installFromInput_takes_any_text_witness :
  RegExp.test RegExp.identifier "ms_python.python" = false
  /\ execs (trace (snd (installFromInput (Scenario.healthy Null) Scenario.ready
                          ["ms_python.python"] (Scenario.world_with [] []))))
     = [install_command Scenario.installer "ms_python.python"].
Proof.
  split; [reflexivity|].
  apply (installFromInput_takes_any_text (Scenario.healthy Null) Scenario.ready
           Scenario.installer "ms_python.python" [] (Scenario.world_with [] []));
    reflexivity.
Defined.

End ExtensionFacts.

(* ===================================================================== *)
(** * Properties of MarketplaceViewProvider.js *)
(* ===================================================================== *)

Module ProviderFacts.
Import Provider.

Lemma includes_In (l : list string) (x : string) :
  includes l x = true <-> In x l.
Proof.
  unfold includes. rewrite existsb_exists. split.
  - intros (y & member & same). apply String.eqb_eq in same. subst y. exact member.
  - intros member. exists x. split; [exact member | apply String.eqb_refl].
Qed.

(** [map] on an array keeps the entries in their places. *)
Lemma cmap_Forall2 {A B} (f : A -> completion B) (l : list A) (out : list B) :
  cmap f l = Normal out -> Forall2 (fun x y => f x = Normal y) l out.
Proof.
  revert out. induction l as [|x l IH]; intros out E; cbn in E.
  - injection E as <-. constructor.
  - destruct (f x) as [y|] eqn:Fx; [|discriminate]. cbn in E.
    destruct (cmap f l) as [ys|]; [|discriminate]. cbn in E.
    injection E as <-. constructor; [exact Fx | apply IH; reflexivity].
Qed.

(** A search on a resolved view, for a query that is not empty: the
    loading message, one request, and the ending of [search_result]. *)
Lemma searchMarketplace_run
    (h : host) (p : provider) (v : webviewView) (query : string) (w : world) :
  _view p = Some v ->
  truthy query = true ->
  fst (searchMarketplace h p query w) = Normal tt
  /\ trace (snd (searchMarketplace h p query w))
     = (trace w ++ PostMessage setLoading :: search_request query
                :: search_ending (search_result h w query))%list.
Proof.
  intros view some.
  unfold searchMarketplace. rewrite view, some. cbn [negb].
  unfold search_result, search_request, search_ending. steps.
  unfold axios_post. fields.
  destruct (serves h (clock w) query_url (query_body query)) as [data|st| |];
    fields; cbn [cbind]; traces; try (split; reflexivity).
  unfold extensions_of.
  destruct (get data "results") as [all|]; cbn [cbind]; fields; traces;
    [|split; reflexivity].
  destruct (index all 0) as [first|]; cbn [cbind]; fields; traces;
    [|split; reflexivity].
  destruct (get first "extensions") as [results|]; cbn [cbind]; fields; traces;
    [|split; reflexivity].
  destruct (get results "length") as [len|]; cbn [cbind]; fields; traces;
    [|split; reflexivity].
  destruct (ToString len) as [count|]; cbn [cbind]; fields; traces;
    [|split; reflexivity].
  destruct (array_receiver results "map") as [items|]; cbn [cbind]; fields; traces;
    [|split; reflexivity].
  destruct (cmap _ items) as [found|]; cbn [cbind]; fields; traces;
    split; reflexivity.
Qed.

(** When the [try] block comes to a list of entries, the marketplace has
    answered with a body whose first result set holds an array, and the
    list is that array mapped entry by entry. *)
Lemma search_result_shown
    (h : host) (w : world) (query : string) (found : list summary) :
  search_result h w query = Normal found ->
  exists data items,
    serves h (clock w) query_url (query_body query) = Responded data
    /\ extensions_of data = Normal (Arr items)
    /\ cmap (format (map toLowerCase (extensions_all w))) items = Normal found.
Proof.
  unfold search_result, axios_post. intros shown.
  destruct (serves h (clock w) query_url (query_body query)) as [data|st| |];
    cbn [fst cbind] in shown; try discriminate.
  exists data.
  destruct (extensions_of data) as [results|]; cbn [cbind] in shown;
    [|discriminate].
  destruct (cbind (get results "length") ToString); cbn [cbind] in shown;
    [|discriminate].
  destruct results; cbn [array_receiver cbind] in shown; try discriminate.
  eexists. split; [reflexivity|]. split; [reflexivity | exact shown].
Qed.

Lemma search_result_unanswered (h : host) (w : world) (query : string) :
  serves h (clock w) query_url (query_body query) = NoResponse ->
  search_result h w query = Throw (AxiosError "Network Error" None true).
Proof. intros E. unfold search_result, axios_post. rewrite E. reflexivity. Qed.

Lemma search_result_status (h : host) (w : world) (query : string) (st : Z) :
  serves h (clock w) query_url (query_body query) = Status st ->
  exists e, search_result h w query = Throw e /\ isAxiosError e = true.
Proof.
  intros E. unfold search_result, axios_post. rewrite E.
  eexists. split; reflexivity.
Qed.

Lemma search_result_malformed
    (h : host) (w : world) (query : string) (data : value) (e : thrown) :
  serves h (clock w) query_url (query_body query) = Responded data ->
  extensions_of data = Throw e ->
  search_result h w query = Throw e.
Proof.
  intros E bad. unfold search_result, axios_post. rewrite E. cbn [fst cbind].
  rewrite bad. reflexivity.
Qed.

(** The listener hands a [search] message to [searchMarketplace] and
    adds nothing of its own to the trace. *)
Lemma search_message_searches
    (h : host) (p : provider) (query : string) (w : world) :
  trace (snd (onDidReceiveMessage h p (Webview.Search query) w))
  = trace (snd (searchMarketplace h p query w)).
Proof.
  unfold onDidReceiveMessage. steps.
  match goal with
  | |- context [searchMarketplace h p query ?u] =>
      change u with (logged w [(Log, "MarketplaceViewProvider: Received message from webview")])
  end.
  set (u := logged w _).
  assert (same : forall (A : Type) (m : world -> completion A * world) (x y : world),
            trace (snd (m x)) = trace (snd (m y)) ->
            trace (snd (let (c, w') := let (c, w') := m x in (Normal c, w') in
                        match c with
                        | Normal _ => (Normal tt, w')
                        | Throw e => (Throw e, w')
                        end))
            = trace (snd (m y))).
  { intros A m x y E. destruct (m x) as [c x']. exact E. }
  apply same. clear same.
  unfold searchMarketplace.
  destruct (_view p); [|reflexivity].
  destruct (truthy query); cbn [negb]; [|reflexivity].
  steps. unfold axios_post. fields.
  change (clock u) with (clock w). change (extensions_all u) with (extensions_all w).
  change (trace u) with (trace w).
  destruct (serves h (clock w) query_url (query_body query)) as [data|st| |];
    fields; try reflexivity.
  repeat match goal with
         | |- context [match ?c with Normal _ => _ | Throw _ => _ end] =>
             destruct c; fields; try reflexivity
         end.
Qed.

(** C10.  For a query that is not empty: without a view,
    [searchMarketplace] posts nothing; with a view it posts [setLoading]
    and then exactly one more message, [showResults] with the entries when
    the request and the mapping of its response both succeed, and
    [showError] when any of the two throws. *)
Theorem searchMarketplace_posts
    (h : host) (p : provider) (query : string) (w : world) :
  truthy query = true ->
  (_view p = None ->
   trace (snd (searchMarketplace h p query w)) = trace w)
  /\ (_view p <> None ->
      posts (trace (snd (searchMarketplace h p query w)))
      = (posts (trace w)
         ++ [setLoading;
             match search_result h w query with
             | Normal found => showResults found
             | Throw e => showError (errorMessage_of e)
             end])%list).
Proof.
  intros some. split.
  - intros none. unfold searchMarketplace. rewrite none. reflexivity.
  - intros view. destruct (_view p) as [v|] eqn:V; [|congruence].
    destruct (searchMarketplace_run h p v query w V some) as [_ ->].
    traces. destruct (search_result h w query); reflexivity.
Qed.

Lemma searchMarketplace_posts_witness :
  posts (trace (snd (searchMarketplace
                       (Scenario.healthy (Scenario.response [Scenario.versionless_entry]))
                       Scenario.resolved "python" (Scenario.world_with [] []))))
  = [setLoading; showError generic_failure]
  /\ trace (snd (searchMarketplace Scenario.bare
                   (constructor (Normal Scenario.installer)
                      (Extension.installExtension Scenario.bare))
                   "python" (Scenario.world_with [] [])))
     = [].
Proof.
  destruct (searchMarketplace_posts
              (Scenario.healthy (Scenario.response [Scenario.versionless_entry]))
              Scenario.resolved "python" (Scenario.world_with [] []) eq_refl)
    as [_ shown].
  destruct (searchMarketplace_posts Scenario.bare
              (constructor (Normal Scenario.installer)
                 (Extension.installExtension Scenario.bare))
              "python" (Scenario.world_with [] []) eq_refl)
    as [silent _].
  split; [apply shown; discriminate | apply silent; reflexivity].
Defined.

(** C5.  A search for a query that is not empty, on a view that has been
    resolved, makes exactly one request; its body asks for page 1 with a
    page size of 50; and when entries are shown, they are the extensions
    of the first result set of the response, mapped one by one: as many,
    in the same order. *)
Theorem searchMarketplace_one_request
    (h : host) (p : provider) (v : webviewView) (query : string) (w : world) :
  truthy query = true ->
  let r := searchMarketplace h (resolveWebviewView p v) query w in
  requests (trace (snd r))
  = (requests (trace w) ++ [(query_url, query_body query)])%list
  /\ first_filter (query_body query) "pageNumber" = Normal (Num 1)
  /\ first_filter (query_body query) "pageSize" = Normal (Num 50)
  /\ forall found,
       posts (trace (snd r)) = (posts (trace w) ++ [setLoading; showResults found])%list ->
       exists data items,
         serves h (clock w) query_url (query_body query) = Responded data
         /\ extensions_of data = Normal (Arr items)
         /\ List.length found = List.length items
         /\ Forall2 (fun ext s =>
                       format (map toLowerCase (extensions_all w)) ext = Normal s)
                    items found.
Proof.
  intros some r.
  destruct (searchMarketplace_run h (resolveWebviewView p v) v query w
              eq_refl some) as [_ run].
  subst r. rewrite run. clear run.
  split; [|split; [reflexivity|split; [reflexivity|]]].
  - traces. destruct (search_result h w query); cbn; traces; reflexivity.
  - intros found shown. rewrite posts_app in shown.
    apply app_inv_head in shown. cbn [posts search_request] in shown.
    destruct (search_result h w query) as [found'|e] eqn:R;
      cbn in shown; [|discriminate].
    injection shown as <-.
    destruct (search_result_shown h w query found' R)
      as (data & items & answered & entries & mapped).
    exists data, items. split; [exact answered|]. split; [exact entries|].
    pose proof (cmap_Forall2 _ _ _ mapped) as each.
    split; [symmetry; exact (Forall2_length each) | exact each].
Qed.

Lemma searchMarketplace_one_request_witness :
  let h := Scenario.healthy
             (Scenario.response [Scenario.python_entry; Scenario.plain_entry]) in
  let r := searchMarketplace h Scenario.resolved "python" (Scenario.world_with [] []) in
  requests (trace (snd r)) = [(query_url, query_body "python")]
  /\ exists a b,
       posts (trace (snd r)) = [setLoading; showResults [a; b]]
       /\ extensionId a = "MS-Python.Python"
       /\ extensionId b = "acme.plain".
Proof.
  cbv zeta.
  split.
  - apply (searchMarketplace_one_request
             (Scenario.healthy
                (Scenario.response [Scenario.python_entry; Scenario.plain_entry]))
             (constructor (Normal Scenario.installer)
                (Extension.installExtension (Scenario.healthy Null)))
             WebviewView "python" (Scenario.world_with [] []) eq_refl).
  - eexists. eexists. split; [vm_compute; reflexivity|]. split; reflexivity.
Defined.



(** What [find] with the icon test returns: nothing when no file passes,
    otherwise the first file that does. *)
Lemma find_icon (items : list value) (hit : value) :
  find (fun f => cbind (get f "assetType") (fun t =>
                 Normal (strict_eq_string t default_icon))) items = Normal hit ->
  (hit = Undefined /\ forall f, In f items -> is_icon f = false)
  \/ (exists before after,
        items = (before ++ hit :: after)%list
        /\ (forall g, In g before -> is_icon g = false)
        /\ is_icon hit = true).
Proof.
  revert hit. induction items as [|f items IH]; intros hit found; cbn in found.
  - injection found as <-. left. split; [reflexivity | intros f []].
  - destruct (get f "assetType") as [t|] eqn:tag; cbn [cbind] in found;
      [|discriminate].
    destruct (strict_eq_string t default_icon) eqn:same.
    + injection found as <-. right. exists [], items.
      split; [reflexivity|]. split; [intros g []|].
      unfold is_icon. rewrite tag. exact same.
    + assert (skip : is_icon f = false) by (unfold is_icon; rewrite tag; exact same).
      destruct (IH hit found) as [[-> none] | (before & after & -> & none & one)].
      * left. split; [reflexivity|]. intros g [<- | member]; auto.
      * right. exists (f :: before), after. split; [reflexivity|].
        split; [|exact one]. intros g [<- | member]; auto.
Qed.

(** C9, as the code has it.  The [iconUrl] of a mapped entry is the
    [source] of the first file of the entry's first version whose
    [assetType] is the default-icon tag, and the empty string when the
    version list has no first version, when that version has no file list,
    when no file is so tagged, or when the tagged file has no source. *)
Theorem iconUrl_from_first_version
    (ids : list string) (ext : value) (s : summary) :
  format ids ext = Normal s ->
  icon_from ext (iconUrl s).
Proof.
  unfold format. intros mapped.
  destruct (get ext "displayName"); cbn [cbind] in mapped; [|discriminate].
  destruct (get ext "publisher") as [publisher|]; cbn [cbind] in mapped;
    [|discriminate].
  destruct (get publisher "displayName"); cbn [cbind] in mapped; [|discriminate].
  destruct (get ext "shortDescription"); cbn [cbind] in mapped; [|discriminate].
  destruct (full_id ext) as [id|]; cbn [cbind] in mapped; [|discriminate].
  destruct (icon_of ext) as [icon|] eqn:I; cbn [cbind] in mapped; [|discriminate].
  injection mapped as <-. cbn [iconUrl]. clear - I.
  unfold icon_of in I.
  destruct (get ext "versions") as [versions|] eqn:V; cbn [cbind] in I;
    [|discriminate].
  destruct (index versions 0) as [first|] eqn:F; cbn [cbind] in I; [|discriminate].
  destruct (nullish first) eqn:N1.
  { cbn [cbind] in I. injection I as <-. exact (no_first_version _ _ _ V F N1). }
  destruct (get first "files") as [files|] eqn:L; cbn [cbind] in I; [|discriminate].
  destruct (nullish files) eqn:N2.
  { cbn [cbind] in I. injection I as <-. exact (no_file_list _ _ _ _ V F L N2). }
  destruct (array_receiver files "find") as [items|] eqn:R; cbn [cbind] in I;
    [|discriminate].
  assert (files = Arr items) as ->.
  { destruct files; cbn in R; try discriminate. injection R as <-. reflexivity. }
  destruct (find _ items) as [hit|] eqn:H; cbn [cbind] in I; [|discriminate].
  destruct (find_icon items hit H) as [[-> none] | (before & after & -> & none & one)].
  - cbn in I. injection I as <-. exact (no_icon_file _ _ _ _ V F L none).
  - assert (nullish hit = false) as N3.
    { destruct hit; try reflexivity; discriminate one. }
    rewrite N3 in I.
    destruct (get hit "source") as [source|] eqn:S; cbn [cbind] in I;
      [|discriminate].
    injection I as <-.
    exact (first_icon_file _ _ _ _ _ _ _ V F L none one S).
Qed.

Lemma iconUrl_from_first_version_witness :
  exists s,
    format [] Scenario.python_entry = Normal s
    /\ iconUrl s = Str "https://cdn.example/icon.png"
    /\ icon_from Scenario.python_entry (iconUrl s).
Proof.
  eexists. split; [reflexivity|]. split; [reflexivity|].
  apply (iconUrl_from_first_version [] Scenario.python_entry _ eq_refl).
Defined.

(** An entry whose version list is empty maps to an empty [iconUrl]. *)
Lemma empty_version_list_has_no_icon :
  exists s, format [] Scenario.plain_entry = Normal s /\ iconUrl s = Str "".
Proof. eexists. split; reflexivity. Qed.

(** An entry without a version list is not mapped at all: reading its
    first version throws, so there is no summary and no [iconUrl], and the
    whole search ends in [showError]. *)
Lemma versionless_entry_is_not_mapped :
  get Scenario.versionless_entry "versions" = Normal Undefined
  /\ ~ (exists s, format [] Scenario.versionless_entry = Normal s
                  /\ iconUrl s = Str "").
Proof.
  split; [reflexivity|]. intros (s & mapped & _). discriminate mapped.
Qed.

Lemma versionless_entry_fails_the_search :
  format [] Scenario.versionless_entry
  = Throw (TypeError "Cannot read properties of undefined (reading '0')")
  /\ posts (trace (snd (searchMarketplace
                          (Scenario.healthy
                             (Scenario.response
                                [Scenario.python_entry; Scenario.versionless_entry]))
                          Scenario.resolved "python" (Scenario.world_with [] []))))
     = [setLoading; showError generic_failure].
Proof. split; reflexivity. Qed.

End ProviderFacts.

(* ===================================================================== *)
(** * The identifier pattern *)
(* ===================================================================== *)

Module RegExpFacts.
Import RegExp.

Lemma append_empty (s t : string) : s ++ t = "" -> s = "" /\ t = "".
Proof. destruct s; cbn; intros E; [auto | discriminate]. Qed.

Lemma nullable_matches (r : regex) : nullable r = true <-> matches r "".
Proof.
  split.
  - induction r; cbn; intros N; try discriminate.
    + constructor.
    + apply andb_true_iff in N. destruct N as [Na Nb].
      change "" with ("" ++ ""). constructor; auto.
    + apply orb_true_iff in N. destruct N; [apply matches_left | apply matches_right]; auto.
    + constructor.
  - intros M. remember "" as s eqn:E.
    induction M; cbn; try reflexivity; try discriminate.
    + apply append_empty in E. destruct E. rewrite IHM1, IHM2; auto.
    + rewrite IHM; auto.
    + rewrite IHM; auto using orb_true_r.
Qed.

Lemma derive_sound (c : ascii) (r : regex) :
  forall s, matches (derive c r) s -> matches r (String c s).
Proof.
  induction r; cbn; intros s M.
  - inversion M.
  - inversion M.
  - destruct (accepts c) eqn:A; inversion M; subst. constructor. exact A.
  - destruct (nullable r1) eqn:N.
    + inversion M as [| | | ? ? ? L | ? ? ? R | |]; subst.
      * inversion L; subst.
        change (String c (s0 ++ t)) with (String c s0 ++ t).
        constructor; auto.
      * change (String c s) with ("" ++ String c s).
        constructor; [apply nullable_matches; exact N | auto].
    + inversion M; subst.
      change (String c (s0 ++ t)) with (String c s0 ++ t).
      constructor; auto.
  - inversion M; subst; [apply matches_left | apply matches_right]; auto.
  - inversion M; subst.
    change (String c (s0 ++ t)) with (String c s0 ++ t).
    constructor; auto.
Qed.

Lemma derive_complete (c : ascii) (r : regex) (t : string) :
  matches r t -> forall s, t = String c s -> matches (derive c r) s.
Proof.
  induction 1 as [| accepts c0 A | a b s1 t1 Ma IHa Mb IHb | a b s1 Ma IHa
                  | a b s1 Mb IHb | a | a s1 t1 Ma IHa Ms IHs];
    intros s E; cbn.
  - discriminate.
  - injection E as -> <-. rewrite A. constructor.
  - destruct s1 as [|c1 s1]; cbn in E.
    + subst t1. assert (N : nullable a = true) by (apply nullable_matches; exact Ma).
      rewrite N. apply matches_right. apply IHb. reflexivity.
    + injection E as -> <-.
      assert (S : matches (Seq (derive c a) b) (s1 ++ t1))
        by (constructor; [apply IHa; reflexivity | exact Mb]).
      destruct (nullable a); [apply matches_left|]; exact S.
  - apply matches_left. auto.
  - apply matches_right. auto.
  - discriminate.
  - destruct s1 as [|c1 s1]; cbn in E.
    + apply IHs. exact E.
    + injection E as -> <-. constructor; [apply IHa; reflexivity | exact Ms].
Qed.

(** The test by derivatives accepts exactly the strings of the
    expression. *)
Lemma test_matches (text : string) :
  forall r, test r text = true <-> matches r text.
Proof.
  induction text as [|c text IH]; intros r; cbn.
  - apply nullable_matches.
  - rewrite IH. split; [apply derive_sound | intros M; eapply derive_complete; eauto].
Qed.

Lemma matches_star_unit (accepts : ascii -> bool) (s : string) :
  matches (Star (Unit accepts)) s <-> every accepts s = true.
Proof.
  split.
  - intros M. remember (Star (Unit accepts)) as r eqn:E.
    induction M; try discriminate; [reflexivity|].
    injection E as ->. inversion M1; subst. cbn.
    rewrite IHM2 by reflexivity. rewrite andb_true_r. assumption.
  - induction s as [|c s IH]; cbn; intros A; [constructor|].
    apply andb_true_iff in A. destruct A as [Ac As].
    change (String c s) with (String c "" ++ s).
    constructor; [constructor; exact Ac | auto].
Qed.

Lemma matches_plus_unit (accepts : ascii -> bool) (s : string) :
  matches (Plus (Unit accepts)) s <-> s <> "" /\ every accepts s = true.
Proof.
  unfold Plus. split.
  - intros M. inversion M as [| | ? ? s1 s2 M1 M2 | | | |]; subst.
    inversion M1; subst. apply matches_star_unit in M2. cbn.
    split; [discriminate|]. rewrite M2, andb_true_r. assumption.
  - intros [some A]. destruct s as [|c s]; [congruence|]. cbn in A.
    apply andb_true_iff in A. destruct A as [Ac As].
    change (String c s) with (String c "" ++ s).
    constructor; [constructor; exact Ac | apply matches_star_unit; exact As].
Qed.

Lemma dot_is_full_stop (c : ascii) : dot c = true <-> c = "."%char.
Proof.
  unfold dot. rewrite Nat.eqb_eq. split.
  - intros E. rewrite <- (ascii_nat_embedding c), E. reflexivity.
  - intros ->. reflexivity.
Qed.

(** The texts the pattern accepts: a publisher part and a name part, both
    non-empty and made of letters, digits and hyphens, with one full
    stop between them. *)
Lemma identifier_shape (text : string) :
  test identifier text = true
  <-> exists publisher name,
        text = publisher ++ "." ++ name
        /\ publisher <> "" /\ name <> ""
        /\ every id_unit publisher = true /\ every id_unit name = true.
Proof.
  rewrite test_matches. unfold identifier. split.
  - intros M. inversion M as [| | ? ? s1 s2 M1 M2 | | | |]; subst.
    inversion M2 as [| | ? ? s3 s4 M3 M4 | | | |]; subst.
    inversion M3 as [| ? c D | | | | |]; subst.
    apply dot_is_full_stop in D. subst c.
    apply matches_plus_unit in M1. apply matches_plus_unit in M4.
    exists s1, s4. tauto.
  - intros (publisher & name & -> & P & N & Pa & Na).
    constructor; [apply matches_plus_unit; auto|].
    change ("." ++ name) with (String "."%char "" ++ name).
    constructor; [constructor; reflexivity | apply matches_plus_unit; auto].
Qed.

Lemma identifier_examples :
  test identifier "ms-python.python" = true
  /\ test identifier "MS-Python.Python" = true
  /\ test identifier "ms-python" = false
  /\ test identifier "ms_python.python" = false
  /\ test identifier "" = false.
Proof. repeat split; reflexivity. Qed.

End RegExpFacts.

(* ===================================================================== *)
(** * Properties of the command-only extension.js *)
(* ===================================================================== *)

Module CommandOnlyFacts.
Import CommandOnly.

(** Here too an installer that is already there is returned at once. *)
Lemma ensureDependencies_installed_too
    (h : host) (fsPath : string) (w : world) :
  includes (paths w) (installer_under h fsPath) = true ->
  ensureDependencies h fsPath w
  = (Normal (installer_under h fsPath),
     logged w [(Log, "Dependencies are already installed.")]).
Proof.
  intros present. unfold ensureDependencies. steps.
  fold (installer_under h fsPath). rewrite present. reflexivity.
Qed.

(** A setup rejected during [activate] is dropped: the variable is [null]
    when the command first runs. *)
Lemma activate_drops_rejected_setup (h : host) (fsPath : string) (w : world) :
  includes (paths w) fsPath = true ->
  (exists e, fst (ensureDependencies h fsPath w) = Throw e) ->
  fst (activate h fsPath w)
  = Normal {| storagePath := fsPath; dependencySetupPromise := None |}.
Proof.
  intros there (e & rejected). unfold activate. steps. rewrite there.
  cbn [negb]. destruct (ensureDependencies h fsPath w) as [c u].
  cbn [fst] in rejected. subst c. reflexivity.
Qed.

(** The command then starts the setup again, from the beginning, and goes
    on with the new promise. *)
Lemma command_retries_dropped_setup
    (h : host) (fsPath : string) (typed : list string) (w : world) :
  installExtension_command h
    {| storagePath := fsPath; dependencySetupPromise := None |} typed w
  = installExtension_command h
      {| storagePath := fsPath;
         dependencySetupPromise := Some (fst (ensureDependencies h fsPath w)) |}
      typed (snd (ensureDependencies h fsPath w)).
Proof.
  unfold installExtension_command.
  cbn [dependencySetupPromise storagePath].
  unfold bind at 1. unfold call_async.
  destruct (ensureDependencies h fsPath w) as [c u]. reflexivity.
Qed.

(** But the promise of a retry has no handler that would drop it: once it
    is rejected, the command keeps it, reports its error on every later
    run and starts nothing. *)
Lemma command_keeps_rejected_retry
    (h : host) (c : closure) (e : thrown) (typed : list string) (w : world) :
  dependencySetupPromise c = Some (Throw e) ->
  installExtension_command h c typed w
  = (Normal {| storagePath := storagePath c;
               dependencySetupPromise := Some (Throw e) |},
     noted w [ShowErrorMessage (could_not_run e)]).
Proof.
  intros kept. unfold installExtension_command. rewrite kept. reflexivity.
Qed.

(** On the machine without Python: [activate] fails and drops the promise,
    the first run of the command tries again (two more processes), and
    the second run does not (still four). *)
Lemma retry_happens_once_without_python :
  let w0 := Scenario.world_with ["/store"] [] in
  let none := {| storagePath := "/store"; dependencySetupPromise := None |} in
  let kept := {| storagePath := "/store";
                 dependencySetupPromise :=
                   Some (Throw (Error Extension.python_not_found)) |} in
  let w1 := snd (activate Scenario.bare "/store" w0) in
  let w2 := snd (installExtension_command Scenario.bare none [] w1) in
  let w3 := snd (installExtension_command Scenario.bare kept [] w2) in
  fst (activate Scenario.bare "/store" w0) = Normal none
  /\ execs (trace w1) = ["python3 --version"; "python --version"]
  /\ fst (installExtension_command Scenario.bare none [] w1) = Normal kept
  /\ execs (trace w2) = ["python3 --version"; "python --version";
                         "python3 --version"; "python --version"]
  /\ fst (installExtension_command Scenario.bare kept [] w2) = Normal kept
  /\ execs (trace w3) = execs (trace w2).
Proof. cbv zeta. repeat split; reflexivity. Qed.

(** With the validator in place the input box gives back nothing, or a
    text that matches the identifier pattern; only such a text reaches the
    command line of the installer. *)
Lemma command_runs_checked_identifier
    (h : host) (c : closure) (installerCmd : string) (typed : list string)
    (w : world) :
  dependencySetupPromise c = Some (Normal installerCmd) ->
  let w' := snd (installExtension_command h c typed w) in
  execs (trace w') = execs (trace w)
  \/ exists id,
       In id typed
       /\ RegExp.test RegExp.identifier id = true
       /\ execs (trace w') = (execs (trace w) ++ [install_command installerCmd id])%list.
Proof.
  intros resolved. unfold installExtension_command. rewrite resolved. steps.
  destruct (List.find _ typed) as [id|] eqn:chosen.
  - apply find_some in chosen. destruct chosen as [member accepted].
    unfold validateInput in accepted.
    destruct (RegExp.test RegExp.identifier id) eqn:ok; [|discriminate].
    destruct id as [|ch id]; [discriminate ok|].
    right. exists (String ch id). split; [exact member|]. split; [exact ok|].
    fold (install_command installerCmd (String ch id)).
    set (command := install_command installerCmd (String ch id)).
    set (u := {| paths := paths w; extensions_all := extensions_all w;
                 clock := clock w; trace := _; console := console w |}).
    set (p := fst (run h (clock u) (paths u) command)).
    destruct (Z.eq_dec (exit_code p) 0) as [zero|nonzero].
    + rewrite execPromise_zero; [|exact zero]. fields. fold p. unfold ran, u. fields.
      destruct (truthy (stderr p)); fields;
        match goal with |- context [is_reload ?x] => destruct (is_reload x) end;
        fields; traces; reflexivity.
    + rewrite execPromise_nonzero; [|exact nonzero]. fields. unfold ran, u.
      fields. traces. reflexivity.
  - left. fields. traces. reflexivity.
Qed.

End CommandOnlyFacts.

(* ===================================================================== *)
(** * More steps *)
(* ===================================================================== *)

Module MoreSteps.
Import Extension Watch.

Lemma errors_app (a b : list event) : errors (a ++ b) = (errors a ++ errors b)%list.
Proof.
  induction a as [|e a IH]; [reflexivity|].
  destruct e; cbn; rewrite IH; reflexivity.
Qed.

(** Settle every [execPromise] in the goal by the exit code of its
    process. *)
Ltac processes h :=
  repeat match goal with
         | |- context [execPromise h ?c ?u] =>
             let z := fresh "zero" in
             let nz := fresh "nonzero" in
             destruct (Z.eq_dec (exit_code (fst (run h (clock u) (paths u) c))) 0)
               as [z|nz];
             [rewrite (execPromise_zero h c u z)
             |rewrite (execPromise_nonzero h c u nz)];
             unfold ran; fields
         end.

Ltac traces' :=
  rewrite ?execs_app, ?informations_app, ?posts_app, ?requests_app, ?errors_app;
  cbn [execs informations posts requests errors];
  rewrite <- ?app_assoc, ?app_nil_r;
  cbn [app].

(** The run of [findPython], by the exit codes of its probes. *)
Lemma findPython_run (h : host) (w : world) :
  findPython h w
  = let w1 := ran h w python3_probe in
    if (exit_code (fst (run h (clock w) (paths w) python3_probe)) =? 0)%Z
    then (Normal "python3", w1)
    else
      let w2 := ran h w1 python_probe in
      if (exit_code (fst (run h (clock w1) (paths w1) python_probe)) =? 0)%Z
      then (Normal "python", w2)
      else (Throw (Error python_not_found), w2).
Proof.
  unfold findPython, python3_probe, python_probe. steps. cbv zeta.
  destruct (Z.eq_dec (exit_code (fst (run h (clock w) (paths w) "python3 --version"))) 0)
    as [z|nz].
  - rewrite (execPromise_zero h _ w z). fields.
    apply Z.eqb_eq in z. rewrite z. reflexivity.
  - rewrite (execPromise_nonzero h _ w nz). fields.
    apply Z.eqb_neq in nz. rewrite nz.
    set (w1 := ran h w "python3 --version").
    destruct (Z.eq_dec (exit_code (fst (run h (clock w1) (paths w1) "python --version"))) 0)
      as [z'|nz'].
    + rewrite (execPromise_zero h _ w1 z'). fields.
      apply Z.eqb_eq in z'. rewrite z'. reflexivity.
    + rewrite (execPromise_nonzero h _ w1 nz'). fields.
      apply Z.eqb_neq in nz'. rewrite nz'. reflexivity.
Qed.

(** [installExtension] ends normally, whatever it is given. *)
Lemma installExtension_returns
    (h : host) (extensionId installerCmd : option string) (w : world) :
  fst (installExtension h extensionId installerCmd w) = Normal tt.
Proof.
  destruct (given extensionId) eqn:Gid; [destruct (given installerCmd) eqn:Gcmd|].
  - destruct extensionId as [id|]; [|discriminate].
    destruct installerCmd as [cmd|]; [|discriminate].
    apply (ExtensionFacts.installExtension_one_process h id cmd w Gid Gcmd).
  - unfold installExtension. rewrite Gid, Gcmd. reflexivity.
  - unfold installExtension. rewrite Gid. reflexivity.
Qed.

End MoreSteps.
Import MoreSteps.

(* ===================================================================== *)
(** * More properties of extension.js *)
(* ===================================================================== *)

Module SetupFacts.
Import Extension Watch.

(** [findPython] tries [python3] first and [python] only when that probe
    fails; it answers with the name of the first probe that exits with 0,
    and when both fail it throws the fixed "Python is not installed"
    error, whatever the probes reported. *)
Theorem findPython_prefers_python3 (h : host) (w : world) :
  let first := fst (run h (clock w) (paths w) python3_probe) in
  let w1 := ran h w python3_probe in
  let second := fst (run h (clock w1) (paths w1) python_probe) in
  let r := findPython h w in
  (exit_code first = 0%Z ->
   fst r = Normal "python3"
   /\ execs (trace (snd r)) = (execs (trace w) ++ [python3_probe])%list)
  /\ (exit_code first <> 0%Z ->
      execs (trace (snd r)) = (execs (trace w) ++ [python3_probe; python_probe])%list
      /\ (exit_code second = 0%Z -> fst r = Normal "python")
      /\ (exit_code second <> 0%Z -> fst r = Throw (Error python_not_found))).
Proof.
  intros first w1 second r. subst r. rewrite findPython_run. cbv zeta.
  fold first. fold w1. fold second.
  split.
  - intros z. apply Z.eqb_eq in z. rewrite z. cbn [fst snd].
    unfold w1, ran. fields. traces'. auto.
  - intros nz. apply Z.eqb_neq in nz. rewrite nz.
    destruct (exit_code second =? 0)%Z eqn:code; cbn [fst snd];
      unfold w1, ran; fields; traces'.
    + split; [reflexivity|]. split; [reflexivity|].
      apply Z.eqb_eq in code. intros; contradiction.
    + split; [reflexivity|]. split; [|reflexivity].
      apply Z.eqb_neq in code. intros; contradiction.
Qed.

Lemma findPython_prefers_python3_witness :
  fst (findPython python_only (Scenario.world_with [] [])) = Normal "python"
  /\ fst (findPython Scenario.bare (Scenario.world_with [] []))
     = Throw (Error python_not_found)
  /\ fst (findPython (Scenario.healthy Null) (Scenario.world_with [] []))
     = Normal "python3".
Proof.
  split; [|split].
  - apply (findPython_prefers_python3 python_only (Scenario.world_with [] []));
      [discriminate | reflexivity].
  - apply (findPython_prefers_python3 Scenario.bare (Scenario.world_with [] []));
      discriminate.
  - apply (findPython_prefers_python3 (Scenario.healthy Null)
             (Scenario.world_with [] [])). reflexivity.
Defined.

(** A setup that has to provision either returns the installer path after
    telling the user that the setup is complete, without any error
    notification, or throws after exactly one notification "Failed to set
    up Python dependencies: ..." that carries the message of the error
    thrown, without any notification of success. *)
Theorem ensureDependencies_reports_once
    (h : host) (storagePath : string) (w : world) :
  includes (paths w) (installer_under h storagePath) = false ->
  let r := ensureDependencies h storagePath w in
  match fst r with
  | Normal path =>
      path = installer_under h storagePath
      /\ errors (trace (snd r)) = errors (trace w)
      /\ informations (trace (snd r))
         = (informations (trace w) ++ [(setup_complete, [])])%list
  | Throw e =>
      errors (trace (snd r)) = (errors (trace w) ++ [setup_failed e])%list
      /\ informations (trace (snd r)) = informations (trace w)
  end.
Proof.
  intros absent r. subst r. unfold ensureDependencies. steps.
  fold (installer_under h storagePath). rewrite absent.
  rewrite findPython_run. cbv zeta. fields.
  repeat match goal with
         | |- context [(exit_code ?p =? 0)%Z] =>
             destruct (exit_code p =? 0)%Z; unfold ran; fields
         end.
  all: processes h.
  all: traces'; repeat split; reflexivity.
Qed.

Lemma ensureDependencies_reports_once_witness :
  errors (trace (snd (ensureDependencies no_venv "/store"
                        (Scenario.world_with ["/store"] []))))
  = [setup_failed
       (command_failed (venv_command no_venv "python3" "/store")
                       "ensurepip is not available")].
Proof.
  pose proof (ensureDependencies_reports_once no_venv "/store"
                (Scenario.world_with ["/store"] []) eq_refl) as H.
  cbv zeta in H.
  change (fst (ensureDependencies no_venv "/store" (Scenario.world_with ["/store"] [])))
    with (@Throw string (command_failed (venv_command no_venv "python3" "/store")
                           "ensurepip is not available")) in H.
  apply H.
Defined.

(** With [python3] on the machine and both steps exiting with 0, a setup
    runs three processes in this order: the probe, the creation of the
    environment and the pip install, with a progress report before each
    step.  It then announces the success and returns the installer path;
    it does not look whether the installer is there now. *)
Theorem ensureDependencies_provisions
    (h : host) (storagePath : string) (w : world) :
  let probe := run h (clock w) (paths w) python3_probe in
  let venv := run h (S (clock w)) (snd probe)
                  (venv_command h "python3" storagePath) in
  let pip := run h (S (S (clock w))) (snd venv) (pip_command h storagePath) in
  includes (paths w) (installer_under h storagePath) = false ->
  exit_code (fst probe) = 0%Z ->
  exit_code (fst venv) = 0%Z ->
  exit_code (fst pip) = 0%Z ->
  let r := ensureDependencies h storagePath w in
  fst r = Normal (installer_under h storagePath)
  /\ trace (snd r)
     = (trace w
        ++ [WithProgress "Setting up Marketplace Installer dependencies...";
            Exec python3_probe;
            ProgressReport "Creating Python virtual environment...";
            Exec (venv_command h "python3" storagePath);
            ProgressReport "Installing vsix-to-vscodium tool...";
            Exec (pip_command h storagePath);
            ShowInformationMessage setup_complete []])%list
  /\ paths (snd r) = snd pip.
Proof.
  intros probe venv pip absent probed made installed r. subst r.
  unfold ensureDependencies. steps.
  fold (installer_under h storagePath). rewrite absent.
  rewrite findPython_run. cbv zeta. fields.
  fold probe. apply Z.eqb_eq in probed. rewrite probed.
  unfold ran. fields. fold probe.
  fold (venv_command h "python3" storagePath).
  rewrite execPromise_zero; fields; [|exact made].
  unfold ran. fields. fold venv.
  fold (pip_command h storagePath).
  rewrite execPromise_zero; fields; [|exact installed].
  unfold ran. fields. fold pip.
  rewrite <- !app_assoc. cbn [app]. repeat split; reflexivity.
Qed.

Lemma ensureDependencies_provisions_witness :
  let r := ensureDependencies (Scenario.healthy Null) "/store"
             (Scenario.world_with ["/store"] []) in
  fst r = Normal Scenario.installer
  /\ execs (trace (snd r))
     = [python3_probe;
        venv_command (Scenario.healthy Null) "python3" "/store";
        pip_command (Scenario.healthy Null) "/store"]
  /\ includes (paths (snd r)) Scenario.installer = false.
Proof.
  cbv zeta.
  destruct (ensureDependencies_provisions (Scenario.healthy Null) "/store"
              (Scenario.world_with ["/store"] [])
              eq_refl eq_refl eq_refl eq_refl) as (done & steps & files).
  split; [exact done|]. split; [rewrite steps; reflexivity|].
  rewrite files. reflexivity.
Defined.

(** When the creation of the environment exits with another code than 0,
    with whichever Python was found, the setup stops there: the processes
    of the run are the one or two probes and that command, pip is not
    run, and the error thrown is Node's "Command failed" for the command,
    followed by its stderr. *)
Theorem ensureDependencies_stops_without_environment
    (h : host) (storagePath : string) (w : world)
    (pythonCmd : string) (u : world) :
  includes (paths w) (installer_under h storagePath) = false ->
  findPython h (noted w [setup_progress]) = (Normal pythonCmd, u) ->
  let venv := run h (clock u) (paths u) (venv_command h pythonCmd storagePath) in
  exit_code (fst venv) <> 0%Z ->
  let r := ensureDependencies h storagePath w in
  fst r = Throw (command_failed (venv_command h pythonCmd storagePath)
                                (stderr (fst venv)))
  /\ (pythonCmd = "python3"
      /\ execs (trace (snd r))
         = (execs (trace w)
            ++ [python3_probe; venv_command h "python3" storagePath])%list
      \/ pythonCmd = "python"
         /\ execs (trace (snd r))
            = (execs (trace w)
               ++ [python3_probe; python_probe;
                   venv_command h "python" storagePath])%list).
Proof.
  intros absent found venv broken r. subst r.
  assert (probes :
            pythonCmd = "python3"
            /\ execs (trace u) = (execs (trace w) ++ [python3_probe])%list
            \/ pythonCmd = "python"
               /\ execs (trace u)
                  = (execs (trace w) ++ [python3_probe; python_probe])%list).
  { rewrite findPython_run in found. cbv zeta in found.
    destruct (exit_code _ =? 0)%Z in found.
    - injection found as <- <-. left. split; [reflexivity|].
      unfold ran, noted. fields. traces'. reflexivity.
    - destruct (exit_code _ =? 0)%Z in found; [|discriminate].
      injection found as <- <-. right. split; [reflexivity|].
      unfold ran, noted. fields. traces'. reflexivity. }
  unfold ensureDependencies. steps.
  fold (installer_under h storagePath). rewrite absent.
  unfold noted, setup_progress in found. rewrite found. fields.
  fold (venv_command h pythonCmd storagePath).
  rewrite execPromise_nonzero; fields; [|exact broken].
  unfold ran. fields. fold venv. traces'.
  split; [reflexivity|].
  destruct probes as [[-> same] | [-> same]]; [left | right];
    (split; [reflexivity|]); rewrite same, <- app_assoc; reflexivity.
Qed.

(** With [python3], and with [python] as the fallback. *)
Lemma ensureDependencies_stops_without_environment_witness :
  execs (trace (snd (ensureDependencies no_venv "/store"
                       (Scenario.world_with ["/store"] []))))
  = [python3_probe; venv_command no_venv "python3" "/store"]
  /\ execs (trace (snd (ensureDependencies python_only_no_venv "/store"
                          (Scenario.world_with ["/store"] []))))
     = [python3_probe; python_probe;
        venv_command python_only_no_venv "python" "/store"].
Proof.
  destruct (ensureDependencies_stops_without_environment no_venv "/store"
              (Scenario.world_with ["/store"] []) "python3" _
              eq_refl eq_refl) as [_ [[_ first] | [wrong _]]];
    [discriminate | | discriminate wrong].
  destruct (ensureDependencies_stops_without_environment python_only_no_venv
              "/store" (Scenario.world_with ["/store"] []) "python" _
              eq_refl eq_refl) as [_ [[wrong _] | [_ second]]];
    [discriminate | discriminate wrong |].
  split; [exact first | exact second].
Defined.

(** Without a Python (both probes exit with another code than 0) the
    setup runs nothing but the two probes, reports the fixed "Python is
    not installed" text and throws it. *)
Theorem ensureDependencies_without_python
    (h : host) (storagePath : string) (w : world) :
  let first := run h (clock w) (paths w) python3_probe in
  let second := run h (S (clock w)) (snd first) python_probe in
  includes (paths w) (installer_under h storagePath) = false ->
  exit_code (fst first) <> 0%Z ->
  exit_code (fst second) <> 0%Z ->
  let r := ensureDependencies h storagePath w in
  fst r = Throw (Error python_not_found)
  /\ execs (trace (snd r))
     = (execs (trace w) ++ [python3_probe; python_probe])%list
  /\ errors (trace (snd r))
     = (errors (trace w)
        ++ [setup_failed (Error python_not_found)])%list.
Proof.
  intros first second absent one two r. subst r.
  unfold ensureDependencies. steps.
  fold (installer_under h storagePath). rewrite absent.
  rewrite findPython_run. cbv zeta. fields.
  fold first. apply Z.eqb_neq in one. rewrite one.
  unfold ran. fields. fold first. fold second.
  apply Z.eqb_neq in two. rewrite two. fields. traces'.
  repeat split; reflexivity.
Qed.

Lemma ensureDependencies_without_python_witness :
  fst (ensureDependencies Scenario.bare "/store"
         (Scenario.world_with ["/store"] []))
  = Throw (Error python_not_found).
Proof.
  apply (ensureDependencies_without_python Scenario.bare "/store"
           (Scenario.world_with ["/store"] []));
    [reflexivity | discriminate | discriminate].
Defined.

(** [activate] throws only when the storage directory is missing and the
    file system refuses to make it: it then throws that error before the
    setup starts, with nothing run and nothing shown.  Otherwise it ends
    normally: the directory is there when the setup starts; the promise
    kept for the command is the way that setup settled, also when it was
    rejected; and the view provider, which has no view yet, holds the
    same promise. *)
Theorem activate_keeps_the_setup (h : host) (fsPath : string) (w : world) :
  (includes (paths w) fsPath = true \/ refuses h (paths w) fsPath = None ->
   let u := activating fsPath w in
   includes (paths u) fsPath = true
   /\ exists a,
        fst (activate h fsPath w) = Normal a
        /\ dependencySetupPromise a = fst (ensureDependencies h fsPath u)
        /\ Provider._installerCmdPromise (view_provider a) = dependencySetupPromise a
        /\ Provider._view (view_provider a) = None
        /\ trace (snd (activate h fsPath w))
           = trace (snd (ensureDependencies h fsPath u))
        /\ paths (snd (activate h fsPath w))
           = paths (snd (ensureDependencies h fsPath u)))
  /\ (forall e,
      includes (paths w) fsPath = false ->
      refuses h (paths w) fsPath = Some e ->
      activate h fsPath w
      = (Throw e,
         logged w [(Log, "Marketplace Installer extension is activating...")])).
Proof.
  split.
  - intros can. cbv zeta. unfold activating, activate. steps.
    destruct (includes (paths w) fsPath) eqn:there; cbn [negb]; fields.
    + split; [unfold logged; fields; exact there|].
      unfold logged.
      destruct (ensureDependencies h fsPath _) as [c v]. fields.
      eexists. repeat split; reflexivity.
    + destruct can as [impossible | made]; [discriminate|].
      fields. rewrite made. fields.
      split; [cbn; rewrite String.eqb_refl; reflexivity|].
      rewrite <- app_assoc. cbn [app].
      destruct (ensureDependencies h fsPath _) as [c v]. fields.
      eexists. repeat split; reflexivity.
  - intros e missing refused. unfold activate. steps.
    rewrite missing. cbn [negb]. fields. rewrite refused. reflexivity.
Qed.

Lemma activate_keeps_the_setup_witness :
  activate read_only "/store" (Scenario.world_with [] [])
  = (Throw (Error "EACCES: permission denied, mkdir"),
     logged (Scenario.world_with [] [])
            [(Log, "Marketplace Installer extension is activating...")])
  /\ exists a,
       fst (activate Scenario.bare "/store" (Scenario.world_with [] [])) = Normal a
       /\ dependencySetupPromise a = Throw (Error python_not_found).
Proof.
  destruct (activate_keeps_the_setup read_only "/store"
              (Scenario.world_with [] [])) as [_ refused].
  destruct (activate_keeps_the_setup Scenario.bare "/store"
              (Scenario.world_with [] [])) as [made _].
  split; [apply refused; reflexivity|].
  destruct (made (or_intror eq_refl)) as (_ & a & done & kept & _).
  exists a. split; [exact done|]. rewrite kept. reflexivity.
Defined.

(** [installExtension] never throws, and starts at most one process. *)
Theorem installExtension_never_throws
    (h : host) (extensionId installerCmd : option string) (w : world) :
  let r := installExtension h extensionId installerCmd w in
  fst r = Normal tt
  /\ (List.length (execs (trace (snd r))) <= S (List.length (execs (trace w))))%nat.
Proof.
  cbv zeta. split; [apply installExtension_returns|].
  destruct (given extensionId) eqn:Gid; [destruct (given installerCmd) eqn:Gcmd|].
  - destruct extensionId as [id|]; [|discriminate].
    destruct installerCmd as [cmd|]; [|discriminate].
    destruct (ExtensionFacts.installExtension_one_process h id cmd w Gid Gcmd)
      as [_ ->].
    rewrite length_app. cbn. rewrite Nat.add_1_r. apply le_n.
  - unfold installExtension. rewrite Gid, Gcmd. cbn. traces'. apply le_S, le_n.
  - unfold installExtension. rewrite Gid. cbn. traces'. apply le_S, le_n.
Qed.

(** The command [installFromInput] never throws either: a rejected setup
    and a failed install both end in a notification. *)
Theorem installFromInput_never_throws
    (h : host) (a : activated) (typed : list string) (w : world) :
  fst (installFromInput h a typed w) = Normal tt.
Proof.
  unfold installFromInput. steps.
  destruct (dependencySetupPromise a) as [cmd|e]; [|reflexivity].
  destruct (List.find _ typed) as [id|]; cbn [given].
  - destruct (truthy id); [|reflexivity].
    pose proof (installExtension_returns h (Some id) (Some cmd)
                  (noted w [input_box])) as done.
    unfold noted, input_box in done.
    destruct (installExtension h (Some id) (Some cmd) _) as [c v].
    cbn [fst] in done. subst c. reflexivity.
  - reflexivity.
Qed.

(** When the user leaves the input box with Escape, or submits an empty
    text, the command does nothing after showing the box. *)
Theorem installFromInput_cancelled
    (h : host) (a : activated) (installerCmd : string) (typed : list string)
    (w : world) :
  dependencySetupPromise a = Normal installerCmd ->
  hd_error typed = None \/ hd_error typed = Some EmptyString ->
  installFromInput h a typed w = (Normal tt, noted w [input_box]).
Proof.
  intros resolved nothing. unfold installFromInput. steps. rewrite resolved.
  destruct typed as [|text rest]; cbn [List.find given]; [reflexivity|].
  destruct nothing as [none | empty]; [discriminate|].
  injection empty as ->. reflexivity.
Qed.

Lemma installFromInput_cancelled_witness :
  installFromInput (Scenario.healthy Null) Scenario.ready []
    (Scenario.world_with [] [])
  = (Normal tt, noted (Scenario.world_with [] []) [input_box]).
Proof.
  apply (installFromInput_cancelled (Scenario.healthy Null) Scenario.ready
           Scenario.installer [] (Scenario.world_with [] []));
    [reflexivity | left; reflexivity].
Defined.

End SetupFacts.

(* ===================================================================== *)
(** * More properties of MarketplaceViewProvider.js *)
(* ===================================================================== *)

Module SearchFacts.
Import Provider Watch.

(** [searchMarketplace] never throws: without a view, for an empty query,
    and whatever the request or the response come to.  The listener can
    leave its promise alone. *)
Theorem searchMarketplace_never_throws
    (h : host) (p : provider) (query : string) (w : world) :
  fst (searchMarketplace h p query w) = Normal tt.
Proof.
  destruct (_view p) as [v|] eqn:view.
  - destruct (truthy query) eqn:some.
    + apply (ProviderFacts.searchMarketplace_run h p v query w view some).
    + unfold searchMarketplace. rewrite view, some. reflexivity.
  - unfold searchMarketplace. rewrite view. reflexivity.
Qed.

(** An empty query on a resolved view is answered by the one message
    [showInfo] "Please enter a search term."; no request is made. *)
Theorem searchMarketplace_empty_query
    (h : host) (p : provider) (v : webviewView) (w : world) :
  _view p = Some v ->
  searchMarketplace h p EmptyString w
  = (Normal tt, noted w [PostMessage (showInfo "Please enter a search term.")]).
Proof.
  intros view. unfold searchMarketplace. rewrite view. reflexivity.
Qed.

Lemma searchMarketplace_empty_query_witness :
  requests (trace (snd (searchMarketplace (Scenario.healthy Null)
                          Scenario.resolved EmptyString
                          (Scenario.world_with [] []))))
  = [].
Proof.
  rewrite (searchMarketplace_empty_query (Scenario.healthy Null)
             Scenario.resolved WebviewView (Scenario.world_with [] []) eq_refl).
  reflexivity.
Defined.

(** What the user reads when a search fails.  A response with status 404,
    400 or 500 has a text of its own; a request without a response is a
    network error; every other failure (another status, a request that was
    not sent, a response body of another shape) gets the generic text.
    The notification repeats the text of [showError] after "Marketplace
    search failed: ". *)
Theorem search_failure_texts
    (h : host) (p : provider) (v : webviewView) (query : string) (w : world) :
  _view p = Some v ->
  truthy query = true ->
  let answer := serves h (clock w) query_url (query_body query) in
  let shown text :=
    trace (snd (searchMarketplace h p query w))
    = (trace w ++ [PostMessage setLoading; search_request query;
                   ShowErrorMessage ("Marketplace search failed: " ++ text);
                   PostMessage (showError text)])%list in
  (answer = Status 404 ->
   shown "Marketplace API endpoint not found or changed. This extension may need an update.")
  /\ (answer = Status 400 ->
      shown "Invalid search request. The marketplace API might have changed its expected parameters.")
  /\ (answer = Status 500 ->
      shown "Internal server error from Marketplace API. Please try again later.")
  /\ (forall st, answer = Status st -> st <> 404%Z -> st <> 400%Z -> st <> 500%Z ->
      shown generic_failure)
  /\ (answer = NoResponse ->
      shown "Network error during search. Check your internet connection.")
  /\ (answer = NotSent -> shown generic_failure)
  /\ (forall data e, answer = Responded data -> extensions_of data = Throw e ->
      shown generic_failure).
Proof.
  intros view some answer shown.
  destruct (ProviderFacts.searchMarketplace_run h p v query w view some) as [_ run].
  assert (by_result : forall e, search_result h w query = Throw e ->
                                shown (errorMessage_of e)).
  { intros e R. unfold shown. rewrite run, R. reflexivity. }
  assert (status : forall st, answer = Status st ->
            search_result h w query
            = Throw (AxiosError ("Request failed with status code " ++ decimal st)
                                (Some st) true)).
  { intros st A. unfold search_result, axios_post. fold answer. rewrite A.
    reflexivity. }
  repeat split.
  - intros A. exact (by_result _ (status _ A)).
  - intros A. exact (by_result _ (status _ A)).
  - intros A. exact (by_result _ (status _ A)).
  - intros st A n404 n400 n500.
    pose proof (by_result _ (status _ A)) as S. cbn [errorMessage_of] in S.
    apply Z.eqb_neq in n404, n400, n500. rewrite n404, n400, n500 in S. exact S.
  - intros A. apply (by_result (AxiosError "Network Error" None true)).
    unfold search_result, axios_post. fold answer. rewrite A. reflexivity.
  - intros A. apply (by_result (AxiosError "Request aborted" None false)).
    unfold search_result, axios_post. fold answer. rewrite A. reflexivity.
  - intros data e A bad.
    pose proof (by_result e
                  (ProviderFacts.search_result_malformed h w query data e A bad)) as S.
    destruct e; try exact S.
    (* an [AxiosError] cannot come out of reading the response *)
    exfalso. clear - bad. unfold extensions_of in bad.
    destruct (get data "results") as [all|e1] eqn:G1; cbn [cbind] in bad.
    + destruct (index all 0) as [first|e2] eqn:G2; cbn [cbind] in bad.
      * destruct first; cbn in bad; discriminate.
      * destruct all; cbn in G2; try discriminate;
          injection G2 as <-; discriminate.
    + destruct data; cbn in G1; try discriminate;
        injection G1 as <-; discriminate.
Qed.

Lemma search_failure_texts_witness :
  trace (snd (searchMarketplace (answering 404) Scenario.resolved "python"
                (Scenario.world_with [] [])))
  = [PostMessage setLoading; search_request "python";
     ShowErrorMessage
       ("Marketplace search failed: "
        ++ "Marketplace API endpoint not found or changed. This extension may need an update.");
     PostMessage
       (showError
          "Marketplace API endpoint not found or changed. This extension may need an update.")].
Proof.
  apply (search_failure_texts (answering 404) Scenario.resolved WebviewView
           "python" (Scenario.world_with [] []) eq_refl eq_refl).
  reflexivity.
Defined.

(** An [install] message from the webview, once the setup has resolved
    with an installer path, starts the installer with the value of the
    message as it came: nothing checks that it is an identifier. *)
Theorem install_message_runs_installer
    (h : host) (p : provider) (installerCmd id : string) (w : world) :
  _installerCmdPromise p = Normal installerCmd ->
  _installExtension p = Extension.installExtension h ->
  truthy installerCmd = true ->
  truthy id = true ->
  let r := onDidReceiveMessage h p (Webview.Install id) w in
  fst r = Normal tt
  /\ execs (trace (snd r))
     = (execs (trace w) ++ [install_command installerCmd id])%list.
Proof.
  intros resolved wired Hcmd Hid. cbv zeta.
  unfold onDidReceiveMessage. steps. rewrite resolved, Hcmd, wired. cbn [negb].
  match goal with
  | |- context [Extension.installExtension h (Some id) (Some installerCmd) ?u] =>
      destruct (ExtensionFacts.installExtension_one_process h id installerCmd u
                  Hid Hcmd) as [done one];
      destruct (Extension.installExtension h (Some id) (Some installerCmd) u)
        as [c x]
  end.
  cbn [fst snd trace] in *. subst c. split; [reflexivity | exact one].
Qed.

Lemma install_message_runs_installer_witness :
  RegExp.test RegExp.identifier "not an identifier" = false
  /\ execs (trace (snd (onDidReceiveMessage (Scenario.healthy Null)
                          Scenario.resolved (Webview.Install "not an identifier")
                          (Scenario.world_with [] []))))
     = [install_command Scenario.installer "not an identifier"].
Proof.
  split; [reflexivity|].
  apply (install_message_runs_installer (Scenario.healthy Null) Scenario.resolved
           Scenario.installer "not an identifier" (Scenario.world_with [] []));
    reflexivity.
Defined.

(** The installer path the listener waits for can only be empty when the
    setup resolved with an empty path; it then says that the tool is not
    ready and starts nothing. *)
Theorem install_message_without_installer
    (h : host) (p : provider) (id : string) (w : world) :
  _installerCmdPromise p = Normal EmptyString ->
  onDidReceiveMessage h p (Webview.Install id) w
  = (Normal tt,
     noted (logged w [(Log, "MarketplaceViewProvider: Received message from webview")])
           [ShowErrorMessage
              "Installer tool is not ready. Please wait for setup to complete."]).
Proof.
  intros empty. unfold onDidReceiveMessage. steps. rewrite empty. reflexivity.
Qed.

End SearchFacts.

(* ===================================================================== *)
(** * More properties of the command-only extension.js *)
(* ===================================================================== *)

Module RetryFacts.
Import CommandOnly Watch.

Lemma activate_drops_rejected_setup_witness :
  fst (activate Scenario.bare "/store" (Scenario.world_with ["/store"] []))
  = Normal {| storagePath := "/store"; dependencySetupPromise := None |}.
Proof.
  apply (CommandOnlyFacts.activate_drops_rejected_setup Scenario.bare "/store"
           (Scenario.world_with ["/store"] []) eq_refl).
  exists (Error Extension.python_not_found). reflexivity.
Defined.

Lemma command_keeps_rejected_retry_witness :
  trace (snd (installExtension_command Scenario.bare rejected_closure
                ["ms-python.python"] (Scenario.world_with ["/store"] [])))
  = [ShowErrorMessage (could_not_run (Error Extension.python_not_found))].
Proof.
  rewrite (CommandOnlyFacts.command_keeps_rejected_retry Scenario.bare
             rejected_closure (Error Extension.python_not_found)
             ["ms-python.python"] (Scenario.world_with ["/store"] []) eq_refl).
  reflexivity.
Defined.

(** The user types a text with an underscore, then a proper identifier:
    only the second reaches the installer. *)
Lemma command_runs_checked_identifier_witness :
  execs (trace (snd (installExtension_command (Scenario.healthy Null)
                       resolved_closure ["ms_python.python"; "ms-python.python"]
                       (Scenario.world_with [] []))))
  = [install_command Scenario.installer "ms-python.python"].
Proof.
  destruct (CommandOnlyFacts.command_runs_checked_identifier
              (Scenario.healthy Null) resolved_closure Scenario.installer
              ["ms_python.python"; "ms-python.python"]
              (Scenario.world_with [] []) eq_refl) as [none | (id & _ & _ & one)].
  - discriminate none.
  - reflexivity.
Defined.

End RetryFacts.

(* ===================================================================== *)
(** * Properties of the rendered results *)
(* ===================================================================== *)

Module PanelFacts.
Import Webview Panel Watch.

Lemma offers_of_items (exts : list summary) :
  flat_map click
    (filter (fun e => (tag e =? "button")%string)
            (flat_map descendants (map item exts)))
  = map (fun ext => Install (extensionId ext)) exts.
Proof.
  induction exts as [|ext exts IH]; [reflexivity|].
  cbn [map flat_map]. rewrite filter_app, flat_map_app, IH. reflexivity.
Qed.

(** The list that [renderResults] builds offers one install per entry, in
    the order of the entries, each with the identifier of its entry, also
    for the entries that are marked as installed; and it offers nothing
    when the list is empty or missing. *)
Theorem renderResults_offers_every_entry (extensions : option (list summary)) :
  offers (renderResults extensions)
  = map (fun ext => Install (extensionId ext)) (listed extensions).
Proof.
  destruct extensions as [[|ext exts]|]; try reflexivity.
  unfold offers, elements, renderResults.
  cbn [flat_map descendants]. rewrite app_nil_r.
  cbn [filter tag String.eqb Ascii.eqb Bool.eqb].
  exact (offers_of_items (ext :: exts)).
Qed.

Lemma images_of_items (exts : list summary) :
  map (property "src")
    (filter (fun e => (tag e =? "img")%string)
            (flat_map descendants (map item exts)))
  = map (fun ext => or_else (iconUrl ext) (Str no_icon)) exts.
Proof.
  induction exts as [|ext exts IH]; [reflexivity|].
  cbn [map flat_map]. rewrite filter_app, map_app, IH. reflexivity.
Qed.

Lemma rows_of_items (exts : list summary) :
  filter (fun e => (tag e =? "li")%string)
         (flat_map descendants (map item exts))
  = map item exts.
Proof.
  induction exts as [|ext exts IH]; [reflexivity|].
  cbn [map flat_map]. rewrite filter_app, IH. reflexivity.
Qed.

(** There is one row and one image per entry, in the order of the
    entries; the image shows the entry's icon, or the "No Icon"
    placeholder when the entry has none, so that no image is left without
    a source. *)
Theorem renderResults_rows_and_icons (extensions : option (list summary)) :
  rows (renderResults extensions) = map item (listed extensions)
  /\ images (renderResults extensions)
     = map (fun ext => or_else (iconUrl ext) (Str no_icon)) (listed extensions)
  /\ Forall (fun src => ToBoolean src = true) (images (renderResults extensions)).
Proof.
  assert (both : rows (renderResults extensions) = map item (listed extensions)
                 /\ images (renderResults extensions)
                    = map (fun ext => or_else (iconUrl ext) (Str no_icon))
                          (listed extensions)).
  { destruct extensions as [[|ext exts]|]; try (split; reflexivity).
    unfold rows, images, elements, renderResults.
    cbn [flat_map descendants]. rewrite app_nil_r.
    cbn [filter tag String.eqb Ascii.eqb Bool.eqb].
    split; [exact (rows_of_items (ext :: exts)) | exact (images_of_items (ext :: exts))]. }
  destruct both as [R I]. split; [exact R|]. split; [exact I|].
  rewrite I. apply Forall_forall. intros src member.
  apply in_map_iff in member. destruct member as (ext & <- & _).
  unfold or_else. destruct (ToBoolean (iconUrl ext)) eqn:T; [exact T | reflexivity].
Qed.

Lemma offers_of_later_items (exts : list summary) :
  flat_map click
    (filter (fun e => (tag e =? "button")%string)
            (flat_map descendants (map PanelInstalled.item exts)))
  = map (fun ext => Install (extensionId ext))
        (filter (fun ext => negb (isInstalled ext)) exts).
Proof.
  induction exts as [|ext exts IH]; [reflexivity|].
  cbn [map flat_map]. rewrite filter_app, flat_map_app, IH.
  unfold PanelInstalled.item. cbn [filter].
  destruct (isInstalled ext); reflexivity.
Qed.

(** The later main.js offers an install for exactly the entries that are
    not marked as installed, in their order: the button of an installed
    entry is disabled and has no listener. *)
Theorem later_renderResults_offers_what_is_not_installed
    (extensions : option (list summary)) :
  offers (PanelInstalled.renderResults extensions)
  = map (fun ext => Install (extensionId ext))
        (filter (fun ext => negb (isInstalled ext)) (listed extensions)).
Proof.
  destruct extensions as [[|ext exts]|]; try reflexivity.
  unfold offers, elements, PanelInstalled.renderResults.
  cbn [flat_map descendants]. rewrite app_nil_r.
  cbn [filter tag String.eqb Ascii.eqb Bool.eqb].
  exact (offers_of_later_items (ext :: exts)).
Qed.

(** From the marketplace entry to the button.  An entry whose identifier
    is, in lower case, among the lower-cased installed identifiers is
    mapped to a summary for which the later main.js offers no install,
    while src/media/main.js still offers one. *)
Theorem installed_entry_offers
    (ids : list string) (ext : value) (s : summary) :
  Provider.format (map toLowerCase ids) ext = Normal s ->
  In (toLowerCase (extensionId s)) (map toLowerCase ids) ->
  offers (PanelInstalled.renderResults (Some [s])) = []
  /\ offers (renderResults (Some [s])) = [Install (extensionId s)].
Proof.
  intros mapped member.
  assert (marked : isInstalled s = true);
    [|split; [unfold offers, elements, PanelInstalled.renderResults;
              cbn [map flat_map]; unfold PanelInstalled.item;
              rewrite marked|]; reflexivity].
  unfold Provider.format in mapped.
  destruct (get ext "displayName"); cbn [cbind] in mapped; [|discriminate].
  destruct (get ext "publisher") as [publisher|]; cbn [cbind] in mapped;
    [|discriminate].
  destruct (get publisher "displayName"); cbn [cbind] in mapped; [|discriminate].
  destruct (get ext "shortDescription"); cbn [cbind] in mapped; [|discriminate].
  destruct (Provider.full_id ext) as [id|]; cbn [cbind] in mapped; [|discriminate].
  destruct (Provider.icon_of ext); cbn [cbind] in mapped; [|discriminate].
  injection mapped as <-. cbn [extensionId isInstalled] in *.
  apply ProviderFacts.includes_In. exact member.
Qed.

End PanelFacts.

(* ===================================================================== *)
(** * The panel after a search, and the bundled setup *)
(* ===================================================================== *)

Module FlowFacts.
Import Webview Panel Watch.

(** With [ms-python.python] installed, the entry [MS-Python.Python] of a
    response gets no install from the later main.js. *)
Lemma installed_entry_offers_witness :
  exists s,
    Provider.format (map toLowerCase ["ms-python.python"]) Scenario.python_entry
    = Normal s
    /\ offers (PanelInstalled.renderResults (Some [s])) = []
    /\ offers (renderResults (Some [s])) = [Install "MS-Python.Python"].
Proof.
  eexists. split; [reflexivity|].
  apply (PanelFacts.installed_entry_offers ["ms-python.python"]
           Scenario.python_entry _ eq_refl).
  left. reflexivity.
Defined.

(** The messages of one search, handled by the listener of the webview
    in the order they were posted, leave the panel with the list of the
    entries found (or "No extensions found.") when the search succeeded
    and with the error paragraph when it failed, whatever the panel held
    before: it never stays on "Loading...". *)
Theorem panel_after_search
    (h : host) (p : Provider.provider) (v : Provider.webviewView)
    (query : string) (w : world) (before : content) :
  Provider._view p = Some v ->
  truthy query = true ->
  exists new,
    posts (trace (snd (Provider.searchMarketplace h p query w)))
    = (posts (trace w) ++ new)%list
    /\ fold_left (fun held m => onMessage m held) new before
       = match search_result h w query with
         | Normal found => renderResults (Some found)
         | Throw e =>
             Markup ("<p class=" ++ dquote ++ "error" ++ dquote ++ ">"
                     ++ Provider.errorMessage_of e ++ "</p>")
         end
    /\ fold_left (fun held m => onMessage m held) new before
       <> Markup "<p>Loading...</p>".
Proof.
  intros view some.
  destruct (ProviderFacts.searchMarketplace_run h p v query w view some) as [_ run].
  exists [setLoading;
          match search_result h w query with
          | Normal found => showResults found
          | Throw e => showError (Provider.errorMessage_of e)
          end].
  split.
  - rewrite run. traces. destruct (search_result h w query); reflexivity.
  - destruct (search_result h w query) as [found|e]; cbn [fold_left onMessage].
    + split; [reflexivity|]. destruct found; cbn; discriminate.
    + split; [reflexivity|]. cbn. discriminate.
Qed.

Lemma panel_after_search_witness :
  exists new,
    posts (trace (snd (Provider.searchMarketplace (answering 500)
                         Scenario.resolved "python" (Scenario.world_with [] []))))
    = new
    /\ fold_left (fun held m => onMessage m held) new (Markup EmptyString)
       <> Markup "<p>Loading...</p>".
Proof.
  destruct (panel_after_search (answering 500) Scenario.resolved
              Provider.WebviewView "python" (Scenario.world_with [] [])
              (Markup EmptyString) eq_refl eq_refl)
    as (new & posted & _ & moved).
  exists new. split; [exact posted | exact moved].
Defined.

Lemma performSearch_query_witness :
  posted (performSearch (Scenario.page_with "  python  ")) = [Search "python"].
Proof.
  apply (WebviewFacts.performSearch_query (Scenario.page_with "  python  ")).
  discriminate.
Defined.

Lemma install_message_after_failed_setup_witness :
  fst (Provider.onDidReceiveMessage Scenario.bare
         (Extension.view_provider Scenario.stuck)
         (Install "ms-python.python") (Scenario.world_with [] []))
  = Throw (Error Extension.python_not_found).
Proof.
  apply (ExtensionFacts.install_message_after_failed_setup Scenario.bare
           (Extension.view_provider Scenario.stuck)
           (Error Extension.python_not_found) "ms-python.python"
           (Scenario.world_with [] []) eq_refl).
Defined.

(** The setup that installs from the bundled source tree looks for the
    installer first and returns it when it is there, also when the source
    tree is gone; only when the installer is missing does a missing source
    tree end the setup, with one error notification that names the
    directory and before any progress notification or process. *)
Theorem bundled_setup_checks_the_source_last
    (h : host)
    (run_in : string -> nat -> list string -> string -> process * list string)
    (storagePath extensionPath : string) (w : world) :
  (includes (paths w) (installer_under h storagePath) = true ->
   Bundled.ensureDependencies h run_in storagePath extensionPath w
   = (Normal (installer_under h storagePath),
      logged w [(Log, "vsix-to-vscodium already installed.")]))
  /\ (includes (paths w) (installer_under h storagePath) = false ->
      includes (paths w) (Bundled.source_under h extensionPath) = false ->
      Bundled.ensureDependencies h run_in storagePath extensionPath w
      = (Throw (Error "vsix-to-vscodium source not found."),
         noted w [ShowErrorMessage
                    (Bundled.missing_source (Bundled.source_under h extensionPath))])).
Proof.
  split.
  - intros present. unfold Bundled.ensureDependencies. steps.
    fold (installer_under h storagePath). rewrite present. reflexivity.
  - intros absent gone. unfold Bundled.ensureDependencies. steps.
    fold (installer_under h storagePath). rewrite absent, gone. reflexivity.
Qed.

Lemma bundled_setup_checks_the_source_last_witness :
  Bundled.ensureDependencies Scenario.bare (fun _ => run Scenario.bare)
    "/store" "/ext" (Scenario.world_with [Scenario.installer] [])
  = (Normal Scenario.installer,
     logged (Scenario.world_with [Scenario.installer] [])
            [(Log, "vsix-to-vscodium already installed.")])
  /\ fst (Bundled.ensureDependencies Scenario.bare (fun _ => run Scenario.bare)
            "/store" "/ext" (Scenario.world_with ["/store"] []))
     = Throw (Error "vsix-to-vscodium source not found.").
Proof.
  destruct (bundled_setup_checks_the_source_last Scenario.bare
              (fun _ => run Scenario.bare) "/store" "/ext"
              (Scenario.world_with [Scenario.installer] [])) as [there _].
  destruct (bundled_setup_checks_the_source_last Scenario.bare
              (fun _ => run Scenario.bare) "/store" "/ext"
              (Scenario.world_with ["/store"] [])) as [_ gone].
  split; [apply there; reflexivity|].
  rewrite gone; reflexivity.
Defined.

End FlowFacts.
